(** * ExpenseTracker backend (backend/server.py): sessions, transactions, analytics

    A shallow embedding of the request handlers of [backend/server.py] and
    the properties of its specification.

    Modelling conventions.
    - The three MongoDB collections [db.users], [db.user_sessions] and
      [db.transactions] are lists of documents in insertion order; a query
      document is a decidable predicate on documents.  [find_one],
      [delete_one] and [update_one] act on the first document that matches,
      [find] keeps the matching documents in collection order, [sort]
      arranges by the key and [to_list n] keeps the first [n] documents.  A
      document is written as BSON: strings and floats are kept as they
      are, a datetime is kept in whole milliseconds ([to_bson]), so the row
      read back differs from the record in memory by what was left of the
      microseconds.  The datetime a query compares with is taken as the
      handler computed it.
    - A [datetime] is an instant, counted in microseconds from the Unix
      epoch (UTC).  [datetime.now(timezone.utc)] and [uuid.uuid4()] are
      inputs of the handler that calls them.
    - [float] is IEEE binary64, the kernel's primitive floats.
    - A handler is a computation over the database that either returns a
      value or raises an [HTTPException]; writes made before a raise stay. *)

From Stdlib Require Import ZArith Floats.
From stdpp Require Import base option list sorting strings gmap pretty.

Local Open Scope string_scope.
Local Open Scope list_scope.
Local Open Scope Z_scope.

Abbreviation datetime := Z (only parsing).

(** [timedelta(days=n)] in microseconds. *)
Definition timedelta_days (n : Z) : Z := n * 86400 * 1000000.

(** ** Models (pydantic classes) *)

Module User.
Record t := mk {
  id : string;
  email : string;
  name : string;
  picture : string;
  created_at : datetime }.
End User.

Module UserSession.
Record t := mk {
  id : string;
  user_id : string;
  session_token : string;
  expires_at : datetime;
  created_at : datetime }.
End UserSession.

Module Transaction.
Record t := mk {
  id : string;
  user_id : string;
  type : string;
  amount : float;
  category : string;
  description : string;
  date : datetime;
  created_at : datetime }.
End Transaction.

Module TransactionCreate.
Record t := mk {
  type : string;
  amount : float;
  category : string;
  description : string;
  date : datetime }.
End TransactionCreate.

Module TransactionUpdate.
Record t := mk {
  type : option string;
  amount : option float;
  category : option string;
  description : option string;
  date : option datetime }.
End TransactionUpdate.

Module DashboardStats.
Record t := mk {
  total_income : float;
  total_expenses : float;
  balance : float;
  transactions_count : nat;
  category_breakdown : gmap string float }.
End DashboardStats.

(** ** Documents as the collections keep them *)

(** A BSON datetime counts whole milliseconds: the driver encodes
    [microsecond // 1000] and drops the rest. *)
Definition to_millis (d : datetime) : datetime := d `div` 1000 * 1000.

(** [to_bson doc]: the document a collection holds after [doc.dict()] was
    written to it. *)
Class Document (A : Type) := to_bson : A → A.

Global Instance user_document : Document User.t := λ u,
  User.mk (User.id u) (User.email u) (User.name u) (User.picture u)
          (to_millis (User.created_at u)).

Global Instance user_session_document : Document UserSession.t := λ s,
  UserSession.mk (UserSession.id s) (UserSession.user_id s)
                 (UserSession.session_token s)
                 (to_millis (UserSession.expires_at s))
                 (to_millis (UserSession.created_at s)).

Global Instance transaction_document : Document Transaction.t := λ t,
  Transaction.mk (Transaction.id t) (Transaction.user_id t) (Transaction.type t)
                 (Transaction.amount t) (Transaction.category t)
                 (Transaction.description t)
                 (to_millis (Transaction.date t))
                 (to_millis (Transaction.created_at t)).

(** ** The database and the collection primitives *)

Record database := mkdb {
  users : list User.t;
  user_sessions : list UserSession.t;
  transactions : list Transaction.t }.

Definition empty_db : database := mkdb [] [] [].

Section collection.
Context {A : Type} (q : A → Prop) `{!∀ x, Decision (q x)}.

Definition find_one (coll : list A) : option A := snd <$> list_find q coll.

Definition find (coll : list A) : list A := filter q coll.

(** The collection after [delete_one], and its [deleted_count]. *)
Definition delete_one (coll : list A) : list A * nat :=
  match list_find q coll with
  | Some (i, _) => (delete i coll, 1%nat)
  | None => (coll, 0%nat)
  end.

Definition update_one (set : A → A) (coll : list A) : list A :=
  match list_find q coll with
  | Some (i, x) => <[i := set x]> coll
  | None => coll
  end.
End collection.

Definition insert_one {A : Type} `{!Document A} (doc : A) (coll : list A) : list A :=
  coll ++ [to_bson doc].

Definition to_list {A : Type} (n : nat) (cursor : list A) : list A := take n cursor.

(** [cursor.sort("date", -1)]: latest date first. *)
Definition date_desc (t1 t2 : Transaction.t) : Prop :=
  Transaction.date t2 ≤ Transaction.date t1.

Global Instance date_desc_dec t1 t2 : Decision (date_desc t1 t2).
Proof. unfold date_desc. apply _. Defined.

Definition sort_date_desc (cursor : list Transaction.t) : list Transaction.t :=
  merge_sort date_desc cursor.

(** ** Handlers as computations over the database *)

Record HTTPException := mkexc { status_code : Z; detail : string }.

Inductive result (A : Type) : Type :=
  | Ok (a : A)
  | Raise (e : HTTPException).
Arguments Ok {A} a.
Arguments Raise {A} e.

Definition M (A : Type) : Type := database → result A * database.

Definition ret {A} (a : A) : M A := λ db, (Ok a, db).
Definition raise {A} (e : HTTPException) : M A := λ db, (Raise e, db).
Definition bind {A B} (m : M A) (k : A → M B) : M B :=
  λ db, match m db with
        | (Ok a, db') => k a db'
        | (Raise e, db') => (Raise e, db')
        end.

Declare Scope handler_scope.
Delimit Scope handler_scope with handler.
Notation "'let*' x ':=' m 'in' k" := (bind m (λ x, k))
  (at level 10, x pattern, m at level 100, k at level 200) : handler_scope.
Notation "m ';;' k" := (bind m (λ _, k))
  (at level 100, k at level 200, right associativity) : handler_scope.
Local Open Scope handler_scope.

(** Reads and writes of the three collections. *)
Definition read {A} (f : database → A) : M A := λ db, (Ok (f db), db).

Definition set_users (f : list User.t → list User.t) : M unit :=
  λ db, (Ok tt, mkdb (f (users db)) (user_sessions db) (transactions db)).
Definition set_user_sessions (f : list UserSession.t → list UserSession.t) : M unit :=
  λ db, (Ok tt, mkdb (users db) (f (user_sessions db)) (transactions db)).
Definition set_transactions (f : list Transaction.t → list Transaction.t) : M unit :=
  λ db, (Ok tt, mkdb (users db) (user_sessions db) (f (transactions db))).

(** [delete_one] on a collection of the database returns the
    [deleted_count] of its result. *)
Definition user_sessions_delete_one (q : UserSession.t → Prop)
    `{!∀ x, Decision (q x)} : M nat :=
  λ db, let '(coll, deleted_count) := delete_one q (user_sessions db) in
        (Ok deleted_count, mkdb (users db) coll (transactions db)).
Definition transactions_delete_one (q : Transaction.t → Prop)
    `{!∀ x, Decision (q x)} : M nat :=
  λ db, let '(coll, deleted_count) := delete_one q (transactions db) in
        (Ok deleted_count, mkdb (users db) (user_sessions db) coll).

(** ** Strings: [str.replace] and truthiness *)

(** [s.replace(old, new)] for a non-empty [old]: scanning from the left,
    each occurrence of [old] is replaced and the scan resumes after it.
    [skip] counts the characters of the current occurrence still to drop. *)
Fixpoint replace_from (old new : string) (skip : nat) (s : string) : string :=
  match s with
  | EmptyString => EmptyString
  | String c s' =>
      match skip with
      | S k => replace_from old new k s'
      | O =>
          if String.prefix old s
          then new +:+ replace_from old new (String.length old - 1) s'
          else String c (replace_from old new 0 s')
      end
  end.

Definition replace (old new s : string) : string := replace_from old new 0 s.

(** [a or b] where [a] is [None] or a string: [a] when it is non-empty. *)
Definition py_or (a : option string) (b : string) : string :=
  match a with
  | Some (String c r) => String c r
  | _ => b
  end.

(** ** Requests *)

(** [headers] is keyed by the lower-cased header name (lookups are
    case-insensitive). *)
Record Request := mkreq {
  cookies : gmap string string;
  headers : gmap string string }.

(** The expression shared by [get_current_user] and [logout]:
    [request.cookies.get("session_token") or
     request.headers.get("authorization", "").replace("Bearer ", "")]. *)
Definition request_session_token (request : Request) : string :=
  py_or (cookies request !! "session_token")
        (replace "Bearer " "" (default "" (headers request !! "authorization"))).

(** ** Authentication helpers *)

Definition session_query (session_token : string) (now : datetime)
    (s : UserSession.t) : Prop :=
  UserSession.session_token s = session_token ∧ now < UserSession.expires_at s.

Global Instance session_query_dec tok now s : Decision (session_query tok now s).
Proof. unfold session_query. apply _. Defined.

Definition get_current_user (request : Request) (now : datetime) : M (option User.t) :=
  let session_token := request_session_token request in
  if decide (session_token = "") then ret None
  else
    let* session := read (λ db, find_one (session_query session_token now) (user_sessions db)) in
    match session with
    | None => ret None
    | Some session =>
        let* user := read (λ db, find_one (λ u, User.id u = UserSession.user_id session) (users db)) in
        ret user
    end.

Definition not_authenticated : HTTPException := mkexc 401 "Not authenticated".
Definition transaction_not_found : HTTPException := mkexc 404 "Transaction not found".
(** An exception no handler catches ([KeyError], [ValueError], [TypeError],
    pydantic's [ValidationError]): the framework answers with status 500. *)
Definition internal_server_error : HTTPException := mkexc 500 "Internal Server Error".

(** [user_data[key]] and the validation of the value: an exception that
    nothing catches when the field is not there. *)
Definition field {A} (value : option A) : M A :=
  match value with
  | Some v => ret v
  | None => raise internal_server_error
  end.

(** The guard that opens every protected handler:
    [user = await get_current_user(request)]
    [if not user: raise HTTPException(status_code=401, ...)]. *)
Definition require_user (request : Request) (now : datetime) : M User.t :=
  let* user := get_current_user request now in
  match user with
  | None => raise not_authenticated
  | Some user => ret user
  end.

(** ** Authentication routes *)

(** The body of the identity provider's answer, [response.json()], as far
    as the handler reads it.  A field is [None] when the key is missing
    from the body (or the body is no JSON object at all) and when its
    value is one the model classes [User] and [UserSession] do not take
    as a string: reading it raises an exception that nothing catches. *)
Record UserData := mkdata {
  data_email : option string;
  data_name : option string;
  data_picture : option string;
  data_session_token : option string }.

Inductive ProviderReply :=
  | RequestError
  | Response (status : Z) (user_data : UserData).

(** The values [get_session_data] draws from [uuid.uuid4()] and the clock,
    in the order of the calls. *)
Record LoginDraw := mkdraw {
  user_uuid : string;
  user_now : datetime;
  expiry_now : datetime;
  session_uuid : string;
  session_now : datetime }.

Record SessionData := mksd { sd_user : User.t; sd_session_token : string }.

Definition get_session_data (request : Request)
    (provider : string → ProviderReply) (g : LoginDraw) : M SessionData :=
  match headers request !! "x-session-id" with
  | None | Some "" => raise (mkexc 400 "Session ID required")
  | Some session_id =>
      match provider session_id with
      | RequestError => raise (mkexc 500 "Authentication service error")
      | Response status user_data =>
          if decide (status ≠ 200) then raise (mkexc 401 "Invalid session")
          else
            let* email := field (data_email user_data) in
            let* existing_user :=
              read (λ db, find_one (λ u, User.email u = email) (users db)) in
            let* user :=
              match existing_user with
              | None =>
                  let* name := field (data_name user_data) in
                  let* picture := field (data_picture user_data) in
                  let new_user :=
                    User.mk (user_uuid g) email name picture (user_now g) in
                  set_users (insert_one new_user);;
                  ret new_user
              | Some existing_user => ret existing_user
              end in
            let* session_token := field (data_session_token user_data) in
            let expires_at := expiry_now g + timedelta_days 7 in
            let user_session :=
              UserSession.mk (session_uuid g) (User.id user) session_token
                             expires_at (session_now g) in
            set_user_sessions (insert_one user_session);;
            ret (mksd user session_token)
      end
  end.

Record LogoutResponse := mklogout { message : string; delete_cookie : string }.

(** The body [{"message": "Logged out successfully"}], sent with
    [response.delete_cookie("session_token", ...)]. *)
Definition logged_out : LogoutResponse :=
  mklogout "Logged out successfully" "session_token".

Definition logout (request : Request) : M LogoutResponse :=
  let session_token := request_session_token request in
  (if decide (session_token = "") then ret tt
   else user_sessions_delete_one (λ s, UserSession.session_token s = session_token);;
        ret tt);;
  ret logged_out.

Definition get_current_user_info (request : Request) (now : datetime) : M User.t :=
  require_user request now.

(** ** Transaction routes *)

Definition create_transaction (transaction_data : TransactionCreate.t)
    (request : Request) (now : datetime)
    (uuid4 : string) (created_now : datetime) : M Transaction.t :=
  let* user := require_user request now in
  let transaction :=
    Transaction.mk uuid4 (User.id user)
      (TransactionCreate.type transaction_data)
      (TransactionCreate.amount transaction_data)
      (TransactionCreate.category transaction_data)
      (TransactionCreate.description transaction_data)
      (TransactionCreate.date transaction_data)
      created_now in
  set_transactions (insert_one transaction);;
  ret transaction.

(** A query parameter counts when it is a non-empty string ([if category:]). *)
Definition truthy (param : option string) : option string :=
  match param with
  | Some (String c r) => Some (String c r)
  | _ => None
  end.

(** The query document built by [get_transactions]. *)
Record list_query := mkquery {
  query_user_id : string;
  query_category : option string;
  query_gte : option datetime;
  query_lte : option datetime }.

Definition list_query_matches (q : list_query) (t : Transaction.t) : Prop :=
  Transaction.user_id t = query_user_id q
  ∧ match query_category q with Some c => Transaction.category t = c | None => True end
  ∧ match query_gte q with Some d => d ≤ Transaction.date t | None => True end
  ∧ match query_lte q with Some d => Transaction.date t ≤ d | None => True end.

Global Instance list_query_matches_dec q t : Decision (list_query_matches q t).
Proof.
  unfold list_query_matches.
  destruct (query_category q), (query_gte q), (query_lte q); apply _.
Defined.

Section list_route.
(** [datetime.fromisoformat]; [None] stands for its [ValueError]. *)
Variable fromisoformat : string → option datetime.

Definition parse_bound (param : option string) : M (option datetime) :=
  match truthy param with
  | None => ret None
  | Some text =>
      match fromisoformat (replace "Z" "+00:00" text) with
      | Some d => ret (Some d)
      | None => raise internal_server_error
      end
  end.

Definition get_transactions (request : Request) (now : datetime)
    (category start_date end_date : option string) : M (list Transaction.t) :=
  let* user := require_user request now in
  let* gte := parse_bound start_date in
  let* lte := parse_bound end_date in
  let query := mkquery (User.id user) (truthy category) gte lte in
  let* transactions :=
    read (λ db, to_list 1000
                  (sort_date_desc (find (list_query_matches query) (transactions db)))) in
  ret transactions.
End list_route.

Definition owned_query (transaction_id user_id : string) (t : Transaction.t) : Prop :=
  Transaction.id t = transaction_id ∧ Transaction.user_id t = user_id.

Global Instance owned_query_dec tid uid t : Decision (owned_query tid uid t).
Proof. unfold owned_query. apply _. Defined.

Definition get_transaction (transaction_id : string) (request : Request)
    (now : datetime) : M Transaction.t :=
  let* user := require_user request now in
  let* transaction :=
    read (λ db, find_one (owned_query transaction_id (User.id user)) (transactions db)) in
  match transaction with
  | None => raise transaction_not_found
  | Some transaction => ret transaction
  end.

(** [{k: v for k, v in transaction_data.dict().items() if v is not None}]
    is empty exactly when every field is [None]. *)
Definition update_data_empty (d : TransactionUpdate.t) : bool :=
  match TransactionUpdate.type d, TransactionUpdate.amount d,
        TransactionUpdate.category d, TransactionUpdate.description d,
        TransactionUpdate.date d with
  | None, None, None, None, None => true
  | _, _, _, _, _ => false
  end.

(** [{"$set": update_data}] applied to one document; a new [date] is
    written as a BSON datetime. *)
Definition set_fields (d : TransactionUpdate.t) (t : Transaction.t) : Transaction.t :=
  Transaction.mk (Transaction.id t) (Transaction.user_id t)
    (default (Transaction.type t) (TransactionUpdate.type d))
    (default (Transaction.amount t) (TransactionUpdate.amount d))
    (default (Transaction.category t) (TransactionUpdate.category d))
    (default (Transaction.description t) (TransactionUpdate.description d))
    (default (Transaction.date t) (to_millis <$> TransactionUpdate.date d))
    (Transaction.created_at t).

Definition update_transaction (transaction_id : string)
    (transaction_data : TransactionUpdate.t) (request : Request)
    (now : datetime) : M Transaction.t :=
  let* user := require_user request now in
  let mine := owned_query transaction_id (User.id user) in
  let* existing := read (λ db, find_one mine (transactions db)) in
  match existing with
  | None => raise transaction_not_found
  | Some _ =>
      (if update_data_empty transaction_data then ret tt
       else set_transactions (update_one mine (set_fields transaction_data)));;
      let* updated_transaction := read (λ db, find_one mine (transactions db)) in
      match updated_transaction with
      | None => raise internal_server_error
      | Some updated_transaction => ret updated_transaction
      end
  end.

Definition delete_transaction (transaction_id : string) (request : Request)
    (now : datetime) : M string :=
  let* user := require_user request now in
  let mine := owned_query transaction_id (User.id user) in
  let* deleted_count := transactions_delete_one mine in
  if decide (deleted_count = 0%nat) then raise transaction_not_found
  else ret "Transaction deleted successfully".

(** ** Analytics routes *)

(** The builtin [sum]: starts from [0] and adds from the left, as the
    loop [total += x] does.  (From CPython 3.12 on, [sum] over floats
    compensates the rounding errors of the additions; the two agree
    whenever the additions are exact, as in the scenarios below.) *)
Definition py_sum (l : list float) : float := foldl PrimFloat.add 0%float l.

Definition amounts_of_type (type : string) (l : list Transaction.t) : list float :=
  Transaction.amount <$> filter (λ t, Transaction.type t = type) l.

(** One turn of the category loop of [get_dashboard_stats]. *)
Definition breakdown_step (category_breakdown : gmap string float)
    (transaction : Transaction.t) : gmap string float :=
  let category := Transaction.category transaction in
  let category_breakdown :=
    if decide (category_breakdown !! category = None)
    then <[category := 0%float]> category_breakdown
    else category_breakdown in
  alter (λ total, (total + Transaction.amount transaction)%float)
        category category_breakdown.

Definition dashboard_stats_of (transactions : list Transaction.t) : DashboardStats.t :=
  let total_income := py_sum (amounts_of_type "income" transactions) in
  let total_expenses := py_sum (amounts_of_type "expense" transactions) in
  let balance := (total_income - total_expenses)%float in
  let category_breakdown := foldl breakdown_step ∅ transactions in
  DashboardStats.mk total_income total_expenses balance
                    (length transactions) category_breakdown.

Definition get_dashboard_stats (request : Request) (now : datetime)
    : M DashboardStats.t :=
  let* user := require_user request now in
  let* transactions :=
    read (λ db, to_list 1000
                  (find (λ t, Transaction.user_id t = User.id user) (transactions db))) in
  ret (dashboard_stats_of transactions).

(** [datetime.strftime("%Y-%m")]: the civil year and month of an instant,
    the year on four digits and the month on two. *)
Definition civil_year_month (days : Z) : Z * Z :=
  let z := days + 719468 in
  let era := z `div` 146097 in
  let doe := z - era * 146097 in
  let yoe := (doe - doe `div` 1460 + doe `div` 36524 - doe `div` 146096) `div` 365 in
  let doy := doe - (365 * yoe + yoe `div` 4 - yoe `div` 100) in
  let mp := (5 * doy + 2) `div` 153 in
  let m := if decide (mp < 10) then mp + 3 else mp - 9 in
  let y := yoe + era * 400 + (if decide (m ≤ 2) then 1 else 0) in
  (y, m).

Definition zero_pad (width : nat) (s : string) : string :=
  String.concat "" (replicate (width - String.length s) "0") +:+ s.

Definition strftime_Ym (d : datetime) : string :=
  let '(y, m) := civil_year_month (d `div` timedelta_days 1) in
  zero_pad 4 (pretty y) +:+ "-" +:+ zero_pad 2 (pretty m).

Record MonthTotals := mkmonth { income : float; expenses : float }.

(** One turn of the loop of [get_monthly_analytics]. *)
Definition monthly_step (monthly_data : gmap string MonthTotals)
    (transaction : Transaction.t) : gmap string MonthTotals :=
  let month_key := strftime_Ym (Transaction.date transaction) in
  let monthly_data :=
    if decide (monthly_data !! month_key = None)
    then <[month_key := mkmonth 0 0]> monthly_data
    else monthly_data in
  if decide (Transaction.type transaction = "income")
  then alter (λ b, mkmonth (income b + Transaction.amount transaction) (expenses b))
             month_key monthly_data
  else alter (λ b, mkmonth (income b) (expenses b + Transaction.amount transaction))
             month_key monthly_data.

Definition monthly_query (user_id : string) (start_date end_date : datetime)
    (t : Transaction.t) : Prop :=
  Transaction.user_id t = user_id
  ∧ start_date ≤ Transaction.date t ∧ Transaction.date t ≤ end_date.

Global Instance monthly_query_dec uid a b t : Decision (monthly_query uid a b t).
Proof. unfold monthly_query. apply _. Defined.

(** [now] is the clock read by the guard, [end_date] the one read by the
    handler's body. *)
Definition get_monthly_analytics (request : Request) (now end_date : datetime)
    : M (gmap string MonthTotals) :=
  let* user := require_user request now in
  let start_date := end_date - timedelta_days 365 in
  let* transactions :=
    read (λ db, to_list 1000
                  (find (monthly_query (User.id user) start_date end_date)
                        (transactions db))) in
  ret (foldl monthly_step ∅ transactions).

(** ** Invariants of the stored data and the calls that change it *)

(** Every session row names the id of a stored user. *)
Definition sessions_reference_users (db : database) : Prop :=
  Forall (λ s, UserSession.user_id s ∈ User.id <$> users db) (user_sessions db).

(** No two transaction rows share an id. *)
Definition unique_transaction_ids (db : database) : Prop :=
  NoDup (Transaction.id <$> transactions db).

(** The handlers that write to the database, with their inputs. *)
Inductive Call :=
  | CallSessionData (request : Request) (provider : string → ProviderReply) (g : LoginDraw)
  | CallLogout (request : Request)
  | CallCreate (transaction_data : TransactionCreate.t) (request : Request)
               (now : datetime) (uuid4 : string) (created_now : datetime)
  | CallUpdate (transaction_id : string) (transaction_data : TransactionUpdate.t)
               (request : Request) (now : datetime)
  | CallDelete (transaction_id : string) (request : Request) (now : datetime).

Definition run_call (c : Call) (db : database) : database :=
  match c with
  | CallSessionData request provider g => (get_session_data request provider g db).2
  | CallLogout request => (logout request db).2
  | CallCreate d request now uuid4 created_now =>
      (create_transaction d request now uuid4 created_now db).2
  | CallUpdate tid d request now => (update_transaction tid d request now db).2
  | CallDelete tid request now => (delete_transaction tid request now db).2
  end.

(** [uuid.uuid4()] draws an id that no stored transaction carries. *)
Definition uuid4_fresh (c : Call) (db : database) : Prop :=
  match c with
  | CallCreate _ _ _ uuid4 _ => uuid4 ∉ Transaction.id <$> transactions db
  | _ => True
  end.

Inductive reachable : database → Prop :=
  | reachable_empty : reachable empty_db
  | reachable_call c db :
      reachable db → uuid4_fresh c db → reachable (run_call c db).

(** ** Removal of every occurrence, in the words of the specification *)

(** [removed_all old s r]: [r] is [s] with every occurrence of [old]
    removed, occurrences being found from the left and not overlapping. *)
Inductive removed_all (old : string) : string → string → Prop :=
  | removed_all_end : removed_all old "" ""
  | removed_all_hit s r :
      removed_all old s r → removed_all old (old +:+ s) r
  | removed_all_keep c s r :
      (∀ rest, String c s ≠ old +:+ rest) →
      removed_all old s r → removed_all old (String c s) (String c r).


(** ** Sample data: two users, their sessions and the scenario rows *)

Definition alice : User.t :=
  User.mk "u-alice" "alice@example.com" "Alice" "https://example.com/alice.png" 1000.
Definition bob : User.t :=
  User.mk "u-bob" "bob@example.com" "Bob" "https://example.com/bob.png" 2000.

Definition alice_session : UserSession.t :=
  UserSession.mk "s-alice" "u-alice" "tok-alice" 1800000000000000 1700000000000000.
Definition bob_session : UserSession.t :=
  UserSession.mk "s-bob" "u-bob" "tok-bob" 1800000000000000 1700000000000000.

(** A request that carries [Authorization: Bearer <token>] and no cookie. *)
Definition bearer_request (token : string) : Request :=
  mkreq ∅ {[ "authorization" := "Bearer " +:+ token ]}.

(** 2024-03-01, 2024-03-05 and 2024-03-10, each at 12:00 UTC. *)
Definition lunch : Transaction.t :=
  Transaction.mk "t-1" "u-alice" "expense" 50 "Food" "Lunch"
                 1709294400000000 1710100000000000.
Definition salary : Transaction.t :=
  Transaction.mk "t-2" "u-alice" "income" 2000 "Salary" "March salary"
                 1709640000000000 1710100000000000.
Definition snack : Transaction.t :=
  Transaction.mk "t-3" "u-alice" "expense" 20 "Food" "Snack"
                 1710072000000000 1710100000000000.
Definition bob_rent : Transaction.t :=
  Transaction.mk "t-4" "u-bob" "expense" 900 "Rent" "Flat"
                 1709294400000000 1710100000000000.

Definition sample_db : database :=
  mkdb [alice; bob] [alice_session; bob_session] [lunch; salary; snack; bob_rent].

(** A clock value between the rows' dates and the sessions' expiry:
    2024-03-11T00:00:00Z. *)
Definition sample_now : datetime := 1710115200000000.

(** A caller with more rows than one query returns: 1001 rows of [alice],
    with ids [r-0] ... [r-1000]. *)
Definition numbered_row (i : nat) : Transaction.t :=
  Transaction.mk ("r-" +:+ pretty i) "u-alice" "expense" 1 "Food" "Lunch"
                 1709294400000000 1710100000000000.

Definition crowded_db : database :=
  mkdb [alice] [alice_session] (numbered_row <$> seq 0 1001).

(** A row whose type is neither ["income"] nor ["expense"]; nothing
    validates [type] on the way in. *)
Definition refund : Transaction.t :=
  Transaction.mk "t-9" "u-alice" "refund" 30 "Food" "Returned item"
                 1709294400000000 1710100000000000.

Definition refund_db : database := mkdb [alice] [alice_session] [refund].

(** The rows whose [date] falls in the month with key [k]. *)
Definition in_month (k : string) (t : Transaction.t) : Prop :=
  strftime_Ym (Transaction.date t) = k.

Global Instance in_month_dec k t : Decision (in_month k t).
Proof. unfold in_month. apply _. Defined.

(** * Properties *)

(** ** Sanity checks of the library models on concrete values *)

Example strftime_epoch : strftime_Ym 0 = "1970-01".
Proof. vm_compute. reflexivity. Qed.

(** 2024-02-29T23:59:59.999999Z and the microsecond after it. *)
Example strftime_leap_day :
  strftime_Ym 1709251199999999 = "2024-02" ∧ strftime_Ym 1709251200000000 = "2024-03".
Proof. vm_compute. split; reflexivity. Qed.

(** 1999-12-31T23:59:59Z, 2000-01-01T00:00:00Z and 0999-06-30. *)
Example strftime_century :
  strftime_Ym 946684799000000 = "1999-12" ∧ strftime_Ym 946684800000000 = "2000-01"
  ∧ strftime_Ym (-30626208000000000) = "0999-06".
Proof. vm_compute. repeat split; reflexivity. Qed.

Example replace_examples :
  replace "Bearer " "" "Bearer abc" = "abc"
  ∧ replace "Bearer " "" "abc" = "abc"
  ∧ replace "Bearer " "" "xBearer yBearer z" = "xyz"
  ∧ replace "Bearer " "" "BeaBearer rer t" = "Bearer t"
  ∧ replace "Z" "+00:00" "2024-01-01T00:00:00Z" = "2024-01-01T00:00:00+00:00"
  ∧ replace "aa" "b" "aaa" = "ba".
Proof. vm_compute. repeat split; reflexivity. Qed.

(** ** The handler monad and the collection primitives *)

Lemma mkdb_eta db : mkdb (users db) (user_sessions db) (transactions db) = db.
Proof. by destruct db. Qed.

Section collection_facts.
Context {A : Type} (q : A → Prop) `{!∀ x, Decision (q x)}.

Lemma find_one_Some coll x : find_one q coll = Some x → x ∈ coll ∧ q x.
Proof.
  unfold find_one. destruct (list_find q coll) as [[i y]|] eqn:E; [|done].
  intros [= <-]. apply list_find_Some in E as (Hi & Hq & _).
  split; [by eapply list_elem_of_lookup_2|done].
Qed.

Lemma find_one_None coll : find_one q coll = None ↔ Forall (λ x, ¬ q x) coll.
Proof.
  unfold find_one. rewrite <-list_find_None. apply fmap_None.
Qed.

Lemma find_one_is_Some coll x : x ∈ coll → q x → is_Some (find_one q coll).
Proof.
  intros Hx Hq. destruct (find_one q coll) eqn:E; [by eexists|].
  apply find_one_None in E. rewrite Forall_forall in E. naive_solver.
Qed.

(** The first match splits the collection. *)
Lemma find_one_split coll x :
  find_one q coll = Some x →
  ∃ l1 l2, coll = l1 ++ x :: l2 ∧ Forall (λ y, ¬ q y) l1 ∧ q x
           ∧ list_find q coll = Some (length l1, x).
Proof.
  unfold find_one. destruct (list_find q coll) as [[i y]|] eqn:E; [|done].
  intros [= <-]. pose proof E as E'.
  apply list_find_Some in E as (Hi & Hq & Hlt).
  exists (take i coll), (drop (S i) coll).
  assert (length (take i coll) = i) as Hlen.
  { rewrite length_take. apply lookup_lt_Some in Hi. lia. }
  repeat split; [| |done|by rewrite Hlen].
  - by rewrite <-(take_drop_middle coll i y) at 1.
  - apply Forall_forall. intros z Hz.
    apply list_elem_of_lookup in Hz as [j Hj].
    pose proof (lookup_lt_Some _ _ _ Hj) as Hjlt. rewrite Hlen in Hjlt.
    rewrite lookup_take_lt in Hj by done. eauto.
Qed.

Lemma delete_one_None coll : find_one q coll = None → delete_one q coll = (coll, 0%nat).
Proof.
  unfold find_one, delete_one. by destruct (list_find q coll) as [[??]|].
Qed.

Lemma delete_one_Some coll l1 x l2 :
  coll = l1 ++ x :: l2 → Forall (λ y, ¬ q y) l1 → q x →
  delete_one q coll = (l1 ++ l2, 1%nat).
Proof.
  intros -> Hl1 Hq. unfold delete_one.
  assert (list_find q (l1 ++ x :: l2) = Some (length l1, x)) as ->.
  { apply list_find_Some. split_and!; [|done|].
    - by rewrite list_lookup_middle.
    - intros j y Hj Hlt. rewrite lookup_app_l in Hj by done.
      rewrite Forall_forall in Hl1. apply Hl1. by eapply list_elem_of_lookup_2. }
  f_equal. induction l1 as [|z l1 IH]; [done|]. simpl.
  f_equal. apply IH. by eapply Forall_inv_tail.
Qed.

Lemma update_one_Some set coll l1 x l2 :
  coll = l1 ++ x :: l2 → Forall (λ y, ¬ q y) l1 → q x →
  update_one q set coll = l1 ++ set x :: l2.
Proof.
  intros -> Hl1 Hq. unfold update_one.
  assert (list_find q (l1 ++ x :: l2) = Some (length l1, x)) as ->.
  { apply list_find_Some. split_and!; [|done|].
    - by rewrite list_lookup_middle.
    - intros j y Hj Hlt. rewrite lookup_app_l in Hj by done.
      rewrite Forall_forall in Hl1. apply Hl1. by eapply list_elem_of_lookup_2. }
  rewrite insert_app_r_alt by lia. by rewrite Nat.sub_diag.
Qed.

Lemma find_one_first l1 x l2 :
  Forall (λ y, ¬ q y) l1 → q x → find_one q (l1 ++ x :: l2) = Some x.
Proof.
  intros Hl1 Hq. unfold find_one.
  assert (list_find q (l1 ++ x :: l2) = Some (length l1, x)) as ->; [|done].
  apply list_find_Some. split_and!; [|done|].
  - by rewrite list_lookup_middle.
  - intros j y Hj Hlt. rewrite lookup_app_l in Hj by done.
    rewrite Forall_forall in Hl1. apply Hl1. by eapply list_elem_of_lookup_2.
Qed.
End collection_facts.

(** ** [str.replace] *)



Lemma replace_empty old new : replace old new "" = "".
Proof. done. Qed.





(** The removal is a function of the text: [removed_all] relates a text to
    one result only. *)
Lemma removed_all_functional old s r1 r2 :
  old ≠ "" → removed_all old s r1 → removed_all old s r2 → r1 = r2.
Proof.
  intros Hold H1. revert r2.
  induction H1 as [|s r H1 IH|c s r Hno H1 IH]; intros r2 H2.
  - inversion H2 as [|s' r' H' Heq|]; [done|].
    destruct old; [done|discriminate].
  - inversion H2 as [Heq|s' r' H' Heq|c' s' r' Hno' H' Heq]; subst.
    + destruct old; [done|discriminate].
    + apply (inj _) in Heq as ->. by apply IH.
    + by destruct (Hno' s).
  - inversion H2 as [|s' r' H' Heq|c' s' r' Hno' H' Heq]; subst.
    + by destruct (Hno s').
    + f_equal. by apply IH.
Qed.


(** ** Identity resolution *)

Lemma get_current_user_read_only request now db :
  ∃ r, get_current_user request now db = (Ok r, db).
Proof.
  unfold get_current_user. case_decide; [by eexists|].
  unfold bind, read, ret.
  destruct (find_one _ (user_sessions db)); by eexists.
Qed.

Lemma require_user_Some request now db u :
  get_current_user request now db = (Ok (Some u), db) →
  require_user request now db = (Ok u, db).
Proof. intros H. unfold require_user, bind. by rewrite H. Qed.

Lemma require_user_None request now db :
  get_current_user request now db = (Ok None, db) →
  require_user request now db = (Raise not_authenticated, db).
Proof. intros H. unfold require_user, bind. by rewrite H. Qed.

(** Resolution reads the users and the sessions only. *)
Lemma get_current_user_ext request now db db' r :
  users db' = users db → user_sessions db' = user_sessions db →
  get_current_user request now db = (Ok r, db) →
  get_current_user request now db' = (Ok r, db').
Proof.
  unfold get_current_user. intros Hu Hs. case_decide.
  { unfold ret. by intros [= <-]. }
  unfold bind, read, ret. rewrite Hs.
  destruct (find_one _ (user_sessions db)); [rewrite Hu|]; by intros [= <-].
Qed.

(** C2. The token of a request is its [session_token] cookie when that is
    a non-empty string, and otherwise its [Authorization] header with
    ["Bearer "] removed (empty when there is no header).  Identity
    resolution never raises and leaves the database as it was.  On a
    database whose sessions name stored users, it yields no user exactly
    when the token is empty or no session row with that token has
    [expires_at] after [now] (no such row at all, or only rows with
    [expires_at <= now]); and a user it yields is the owner of a session
    row with that token and [expires_at > now]. *)
Theorem C2_identity_resolution db request now :
  sessions_reference_users db →
  let token :=
    match cookies request !! "session_token" with
    | Some (String c r) => String c r
    | _ => replace "Bearer " "" (default "" (headers request !! "authorization"))
    end in
  ∃ r, get_current_user request now db = (Ok r, db)
    ∧ (r = None ↔
         token = ""
         ∨ ∀ s, s ∈ user_sessions db →
                UserSession.session_token s = token →
                UserSession.expires_at s ≤ now)
    ∧ (∀ u, r = Some u →
         ∃ s, s ∈ user_sessions db
              ∧ UserSession.session_token s = token
              ∧ now < UserSession.expires_at s
              ∧ u ∈ users db ∧ User.id u = UserSession.user_id s).
Proof.
  intros Hinv token. unfold get_current_user.
  change (request_session_token request) with token.
  set (tok := token).
  destruct (decide (tok = "")) as [Htok|Htok].
  { exists None. split; [done|]. split; [|done]. split; [by left|done]. }
  unfold bind, read, ret.
  destruct (find_one (session_query tok now) (user_sessions db)) as [s|] eqn:Es.
  - apply find_one_Some in Es as [Hs [Hst Hexp]].
    destruct (find_one (λ u, User.id u = UserSession.user_id s) (users db))
      as [u|] eqn:Eu.
    + exists (Some u). split; [done|]. split.
      * split; [done|]. intros [?|H]; [done|]. specialize (H s Hs Hst). lia.
      * intros u' [= <-]. apply find_one_Some in Eu as [??]. by exists s.
    + exfalso. apply find_one_None in Eu.
      unfold sessions_reference_users in Hinv. rewrite Forall_forall in Hinv.
      specialize (Hinv s Hs). apply list_elem_of_fmap in Hinv as (u & Hu & Hin).
      rewrite Forall_forall in Eu. by apply (Eu u).
  - exists None. apply find_one_None in Es. rewrite Forall_forall in Es.
    split; [done|]. split; [|done]. split; [|done]. intros _. right.
    intros s Hs Hst. destruct (decide (UserSession.expires_at s ≤ now)); [done|].
    exfalso. apply (Es s Hs). split; [done|lia].
Qed.

(** On the sample database: a bearer header and a cookie with a live
    token resolve to the session's owner; the same header at the very
    instant of [expires_at], an unknown token and a request without
    credentials resolve to nobody. *)
Lemma C2_identity_resolution_witness :
  get_current_user (bearer_request "tok-alice") sample_now sample_db
  = (Ok (Some alice), sample_db)
  ∧ get_current_user (mkreq {[ "session_token" := "tok-bob" ]} ∅) sample_now sample_db
    = (Ok (Some bob), sample_db)
  ∧ get_current_user (bearer_request "tok-alice") 1800000000000000 sample_db
    = (Ok None, sample_db)
  ∧ get_current_user (bearer_request "tok-carol") sample_now sample_db
    = (Ok None, sample_db)
  ∧ get_current_user (mkreq ∅ ∅) sample_now sample_db = (Ok None, sample_db).
Proof.
  assert (sessions_reference_users sample_db) as Hinv.
  { unfold sessions_reference_users. apply (bool_decide_unpack _).
    vm_compute. exact I. }
  assert (∀ s, s ∈ user_sessions sample_db → s = alice_session ∨ s = bob_session)
    as Hsessions.
  { intros s Hs. unfold sample_db in Hs. simpl in Hs.
    apply elem_of_cons in Hs as [->|Hs]; [by left|].
    apply list_elem_of_singleton in Hs as ->. by right. }
  assert (∀ u, u ∈ users sample_db → u = alice ∨ u = bob) as Husers.
  { intros u Hu. unfold sample_db in Hu. simpl in Hu.
    apply elem_of_cons in Hu as [->|Hu]; [by left|].
    apply list_elem_of_singleton in Hu as ->. by right. }
  assert (alice_session ∈ user_sessions sample_db) as Ha
    by (apply elem_of_cons; by left).
  assert (bob_session ∈ user_sessions sample_db) as Hb
    by (apply elem_of_cons; right; apply elem_of_cons; by left).
  split_and!.
  - destruct (C2_identity_resolution sample_db (bearer_request "tok-alice")
                sample_now Hinv) as (r & -> & Hnone & Hsome).
    destruct r as [u|].
    + destruct (Hsome u eq_refl) as (s & Hs & Htok & _ & Hu & Hid).
      destruct (Hsessions s Hs) as [-> | ->]; [|vm_compute in Htok; discriminate].
      destruct (Husers u Hu) as [-> | ->]; [done|discriminate].
    + destruct (proj1 Hnone eq_refl) as [H|H]; [vm_compute in H; discriminate|].
      specialize (H alice_session Ha). vm_compute in H. by destruct H.
  - destruct (C2_identity_resolution sample_db
                (mkreq {[ "session_token" := "tok-bob" ]} ∅) sample_now Hinv)
      as (r & -> & Hnone & Hsome).
    destruct r as [u|].
    + destruct (Hsome u eq_refl) as (s & Hs & Htok & _ & Hu & Hid).
      destruct (Hsessions s Hs) as [-> | ->]; [vm_compute in Htok; discriminate|].
      destruct (Husers u Hu) as [-> | ->]; [discriminate|done].
    + destruct (proj1 Hnone eq_refl) as [H|H]; [vm_compute in H; discriminate|].
      specialize (H bob_session Hb). vm_compute in H. by destruct H.
  - destruct (C2_identity_resolution sample_db (bearer_request "tok-alice")
                1800000000000000 Hinv) as (r & -> & Hnone & Hsome).
    destruct r as [u|]; [|done].
    destruct (Hsome u eq_refl) as (s & Hs & _ & Hexp & _).
    destruct (Hsessions s Hs) as [-> | ->]; vm_compute in Hexp; discriminate.
  - destruct (C2_identity_resolution sample_db (bearer_request "tok-carol")
                sample_now Hinv) as (r & -> & Hnone & Hsome).
    destruct r as [u|]; [|done].
    destruct (Hsome u eq_refl) as (s & Hs & Htok & _).
    destruct (Hsessions s Hs) as [-> | ->]; vm_compute in Htok; discriminate.
  - destruct (C2_identity_resolution sample_db (mkreq ∅ ∅) sample_now Hinv)
      as (r & -> & Hnone & Hsome).
    destruct r as [u|]; [|done].
    destruct (Hsome u eq_refl) as (s & Hs & Htok & _).
    destruct (Hsessions s Hs) as [-> | ->]; vm_compute in Htok; discriminate.
Defined.

(** Without a cookie and without an [Authorization] header the request
    carries no token. *)
Lemma request_without_credentials request :
  cookies request !! "session_token" = None →
  headers request !! "authorization" = None →
  request_session_token request = "".
Proof. unfold request_session_token. by intros -> ->. Qed.

(** The cookie wins over the header when it is a non-empty string. *)
Lemma request_cookie_precedence request c r :
  cookies request !! "session_token" = Some (String c r) →
  request_session_token request = String c r.
Proof. unfold request_session_token. by intros ->. Qed.



(** ** Transaction CRUD *)

Lemma NoDup_fmap_eq {A B} (f : A → B) (l : list A) x y :
  NoDup (f <$> l) → x ∈ l → y ∈ l → f x = f y → x = y.
Proof.
  induction l as [|z l IH]; intros Hnd Hx Hy Hf; [by apply elem_of_nil in Hx|].
  rewrite fmap_cons in Hnd. apply NoDup_cons in Hnd as [Hz Hnd].
  apply elem_of_cons in Hx as [->|Hx]; apply elem_of_cons in Hy as [->|Hy].
  - done.
  - destruct Hz. rewrite Hf. by apply list_elem_of_fmap_2.
  - destruct Hz. rewrite <-Hf. by apply list_elem_of_fmap_2.
  - by apply IH.
Qed.

(** A row of another owner is no match for the caller's query when ids
    are unique. *)
Lemma foreign_row_not_found db t uid :
  unique_transaction_ids db →
  t ∈ transactions db → Transaction.user_id t ≠ uid →
  find_one (owned_query (Transaction.id t) uid) (transactions db) = None.
Proof.
  intros Hnd Ht Hne. apply find_one_None, Forall_forall.
  intros x Hx [Hid Hown]. apply Hne. rewrite <-Hown. f_equal.
  symmetry. by eapply (NoDup_fmap_eq Transaction.id).
Qed.

Lemma absent_row_not_found (coll : list Transaction.t) tid uid :
  tid ∉ Transaction.id <$> coll →
  find_one (owned_query tid uid) coll = None.
Proof.
  intros Hno. apply find_one_None, Forall_forall.
  intros x Hx [Hid _]. apply Hno. rewrite <-Hid. by apply list_elem_of_fmap_2.
Qed.

(** What the three single-row handlers do when the caller's query has no
    match: the not-found signal, and the database as it was. *)
Lemma single_row_handlers_not_found db request now a tid d :
  get_current_user request now db = (Ok (Some a), db) →
  find_one (owned_query tid (User.id a)) (transactions db) = None →
  get_transaction tid request now db = (Raise transaction_not_found, db)
  ∧ update_transaction tid d request now db = (Raise transaction_not_found, db)
  ∧ delete_transaction tid request now db = (Raise transaction_not_found, db).
Proof.
  intros Ha Hnone. apply require_user_Some in Ha. split_and!.
  - unfold get_transaction, bind. rewrite Ha. unfold read. by rewrite Hnone.
  - unfold update_transaction, bind. rewrite Ha. unfold read. by rewrite Hnone.
  - unfold delete_transaction, bind. rewrite Ha. unfold transactions_delete_one.
    rewrite delete_one_None by done. by rewrite mkdb_eta.
Qed.

(** C1. With unique transaction ids, when the caller [a] supplies the id
    of a row [t] of another owner, reading, updating and deleting all
    raise the not-found signal and leave the database (and so [t]) as it
    was; on any database with the same users and sessions in which no row
    has that id, the three handlers give the same signal. *)
Theorem C1_cross_user_isolation db request now a t d :
  unique_transaction_ids db →
  get_current_user request now db = (Ok (Some a), db) →
  t ∈ transactions db →
  Transaction.user_id t ≠ User.id a →
  (get_transaction (Transaction.id t) request now db
     = (Raise transaction_not_found, db)
   ∧ update_transaction (Transaction.id t) d request now db
     = (Raise transaction_not_found, db)
   ∧ delete_transaction (Transaction.id t) request now db
     = (Raise transaction_not_found, db))
  ∧ ∀ db0,
      users db0 = users db → user_sessions db0 = user_sessions db →
      Transaction.id t ∉ Transaction.id <$> transactions db0 →
      get_transaction (Transaction.id t) request now db0
        = (Raise transaction_not_found, db0)
      ∧ update_transaction (Transaction.id t) d request now db0
        = (Raise transaction_not_found, db0)
      ∧ delete_transaction (Transaction.id t) request now db0
        = (Raise transaction_not_found, db0).
Proof.
  intros Hnd Ha Ht Hne. split.
  - apply (single_row_handlers_not_found db request now a); [done|].
    by apply foreign_row_not_found.
  - intros db0 Hu Hs Hno. apply (single_row_handlers_not_found db0 request now a).
    + by apply (get_current_user_ext request now db).
    + by apply absent_row_not_found.
Qed.

Lemma C1_cross_user_isolation_witness :
  (get_transaction "t-4" (bearer_request "tok-alice") sample_now sample_db
     = (Raise transaction_not_found, sample_db)
   ∧ update_transaction "t-4" (TransactionUpdate.mk None (Some 1%float) None None None)
       (bearer_request "tok-alice") sample_now sample_db
     = (Raise transaction_not_found, sample_db)
   ∧ delete_transaction "t-4" (bearer_request "tok-alice") sample_now sample_db
     = (Raise transaction_not_found, sample_db)).
Proof.
  refine (proj1 (C1_cross_user_isolation sample_db (bearer_request "tok-alice")
                   sample_now alice bob_rent _ _ _ _ _)).
  - unfold unique_transaction_ids. apply (bool_decide_unpack _). vm_compute. exact I.
  - vm_compute. reflexivity.
  - unfold sample_db. simpl. set_solver.
  - apply (bool_decide_unpack _). vm_compute. exact I.
Defined.

(** ** Millisecond precision of the store *)

Ltac millis :=
  unfold to_millis in *; Z.to_euclidean_division_equations; lia.

Lemma to_millis_idemp d : to_millis (to_millis d) = to_millis d.
Proof. millis. Qed.

(** What is dropped is less than a millisecond. *)
Lemma to_millis_bounds d : to_millis d ≤ d < to_millis d + 1000.
Proof. millis. Qed.


(** A stored datetime is after [now] exactly when it is after [now]
    counted in whole milliseconds. *)
Lemma to_millis_gt d now : now < to_millis d ↔ to_millis now < to_millis d.
Proof. millis. Qed.




Lemma set_fields_owned tid uid d t :
  owned_query tid uid t → owned_query tid uid (set_fields d t).
Proof. done. Qed.

Lemma set_fields_empty d t : update_data_empty d = true → set_fields d t = t.
Proof.
  destruct d as [[?|] [?|] [?|] [?|] [?|]]; try done. by destruct t.
Qed.

(** C7. Updating a row the caller owns returns the row as it is stored
    after the update, in the place of the old one, every other row
    staying where it was.  A field of the payload that is not null is the
    new value of that field (a [date] in whole milliseconds, as the store
    keeps it); a null one keeps the stored value; id, owner and
    [created_at] are kept.  A payload with only an amount changes the
    amount alone. *)
Theorem C7_update_partial_merge db request now u tid d t :
  get_current_user request now db = (Ok (Some u), db) →
  find_one (owned_query tid (User.id u)) (transactions db) = Some t →
  ∃ t' l1 l2,
    transactions db = l1 ++ t :: l2
    ∧ Forall (λ x, ¬ owned_query tid (User.id u) x) l1
    ∧ update_transaction tid d request now db
      = (Ok t', mkdb (users db) (user_sessions db) (l1 ++ t' :: l2))
    ∧ Transaction.id t' = Transaction.id t
    ∧ Transaction.user_id t' = Transaction.user_id t
    ∧ Transaction.created_at t' = Transaction.created_at t
    ∧ Transaction.type t' = default (Transaction.type t) (TransactionUpdate.type d)
    ∧ Transaction.amount t' = default (Transaction.amount t) (TransactionUpdate.amount d)
    ∧ Transaction.category t'
      = default (Transaction.category t) (TransactionUpdate.category d)
    ∧ Transaction.description t'
      = default (Transaction.description t) (TransactionUpdate.description d)
    ∧ Transaction.date t'
      = default (Transaction.date t) (to_millis <$> TransactionUpdate.date d)
    ∧ (∀ a, d = TransactionUpdate.mk None (Some a) None None None →
         Transaction.amount t' = a
         ∧ Transaction.type t' = Transaction.type t
         ∧ Transaction.category t' = Transaction.category t
         ∧ Transaction.description t' = Transaction.description t
         ∧ Transaction.date t' = Transaction.date t).
Proof.
  intros Hu Hfind. apply require_user_Some in Hu.
  destruct (find_one_split _ _ _ Hfind) as (l1 & l2 & Hcoll & Hl1 & Hq & _).
  exists (set_fields d t), l1, l2. split_and!; try done.
  - unfold update_transaction, bind. rewrite Hu. unfold read. rewrite Hfind.
    destruct (update_data_empty d) eqn:Hd.
    + unfold ret. rewrite Hfind, (set_fields_empty d t Hd), <-Hcoll.
      by rewrite mkdb_eta.
    + unfold set_transactions. simpl.
      rewrite (update_one_Some _ _ _ l1 t l2) by done.
      by rewrite find_one_first.
  - by intros a ->.
Qed.

(** An amount-only update of [lunch] changes the amount alone; an update
    dated 2024-03-10T14:13:20.123456Z returns and stores the row dated
    ...20.123Z and keeps its amount. *)
Lemma C7_update_partial_merge_witness :
  (∃ t', update_transaction "t-1" (TransactionUpdate.mk None (Some 75%float) None None None)
           (bearer_request "tok-alice") sample_now sample_db
         = (Ok t', mkdb (users sample_db) (user_sessions sample_db)
                        [t'; salary; snack; bob_rent])
       ∧ Transaction.amount t' = 75%float
       ∧ Transaction.type t' = "expense" ∧ Transaction.category t' = "Food"
       ∧ Transaction.description t' = "Lunch"
       ∧ Transaction.date t' = 1709294400000000)
  ∧ (∃ t', update_transaction "t-1"
             (TransactionUpdate.mk None None None None (Some 1710080000123456))
             (bearer_request "tok-alice") sample_now sample_db
           = (Ok t', mkdb (users sample_db) (user_sessions sample_db)
                          [t'; salary; snack; bob_rent])
         ∧ Transaction.date t' = 1710080000123000
         ∧ Transaction.amount t' = 50%float
         ∧ Transaction.created_at t' = 1710100000000000).
Proof.
  split.
  - destruct (C7_update_partial_merge sample_db (bearer_request "tok-alice")
                sample_now alice "t-1"
                (TransactionUpdate.mk None (Some 75%float) None None None) lunch)
      as (t' & l1 & l2 & Hcoll & Hl1 & Hrun & _ & _ & _ & _ & _ & _ & _ & _ & Hamount).
    + vm_compute. reflexivity.
    + vm_compute. reflexivity.
    + destruct l1 as [|x l1].
      * injection Hcoll as <-. exists t'. split; [exact Hrun|].
        exact (Hamount _ eq_refl).
      * exfalso. injection Hcoll as <- _. apply Forall_inv in Hl1.
        apply Hl1. vm_compute. split; reflexivity.
  - destruct (C7_update_partial_merge sample_db (bearer_request "tok-alice")
                sample_now alice "t-1"
                (TransactionUpdate.mk None None None None (Some 1710080000123456))
                lunch)
      as (t' & l1 & l2 & Hcoll & Hl1 & Hrun & _ & _ & Hcr & _ & Ham & _ & _ & Hda & _).
    + vm_compute. reflexivity.
    + vm_compute. reflexivity.
    + destruct l1 as [|x l1].
      * injection Hcoll as <-. exists t'. split; [exact Hrun|].
        rewrite Hda, Ham, Hcr. repeat split; vm_compute; reflexivity.
      * exfalso. injection Hcoll as <- _. apply Forall_inv in Hl1.
        apply Hl1. vm_compute. split; reflexivity.
Defined.

(** ** Logout *)

Lemma logout_total request db : ∃ db', logout request db = (Ok logged_out, db').
Proof.
  unfold logout, bind. case_decide; [by eexists|].
  unfold user_sessions_delete_one. destruct (delete_one _ _). by eexists.
Qed.

Lemma logout_no_token request db :
  request_session_token request = "" → logout request db = (Ok logged_out, db).
Proof. intros H. unfold logout, bind. by rewrite H. Qed.

Lemma logout_no_match request db :
  (∀ s, s ∈ user_sessions db →
        UserSession.session_token s ≠ request_session_token request) →
  logout request db = (Ok logged_out, db).
Proof.
  intros Hno. unfold logout, bind. case_decide; [done|].
  unfold user_sessions_delete_one. rewrite delete_one_None.
  - by rewrite mkdb_eta.
  - apply find_one_None, Forall_forall. intros s Hs. by apply Hno.
Qed.

Lemma logout_first_match request db l1 s1 l2 :
  request_session_token request ≠ "" →
  user_sessions db = l1 ++ s1 :: l2 →
  Forall (λ x, UserSession.session_token x ≠ request_session_token request) l1 →
  UserSession.session_token s1 = request_session_token request →
  logout request db
  = (Ok logged_out, mkdb (users db) (l1 ++ l2) (transactions db)).
Proof.
  intros Htok Hcoll Hl1 Hs1. unfold logout, bind. case_decide; [done|].
  unfold user_sessions_delete_one.
  by rewrite (delete_one_Some _ _ l1 s1 l2).
Qed.

(** C8. The token of a request is its [session_token] cookie when that is
    a non-empty string, and otherwise its [Authorization] header with
    ["Bearer "] removed (empty when there is no header).  Logout always
    returns its success message and never raises; it touches neither
    users nor transactions.  Without a token, or when no session row has
    the token, the database is as it was.  Otherwise the first session
    row with that token is removed and every other session row stays, in
    order; when no row with the token is left, a second logout succeeds
    again and changes nothing. *)
Theorem C8_logout_always_succeeds db request :
  let tok :=
    match cookies request !! "session_token" with
    | Some (String c r) => String c r
    | _ => replace "Bearer " "" (default "" (headers request !! "authorization"))
    end in
  let success := mklogout "Logged out successfully" "session_token" in
  ∃ db',
    logout request db = (Ok success, db')
    ∧ users db' = users db ∧ transactions db' = transactions db
    ∧ (tok = "" → db' = db)
    ∧ ((∀ s, s ∈ user_sessions db → UserSession.session_token s ≠ tok) → db' = db)
    ∧ (tok ≠ "" →
       ∀ s, s ∈ user_sessions db → UserSession.session_token s = tok →
       ∃ l1 s1 l2,
         user_sessions db = l1 ++ s1 :: l2
         ∧ UserSession.session_token s1 = tok
         ∧ Forall (λ x, UserSession.session_token x ≠ tok) l1
         ∧ user_sessions db' = l1 ++ l2
         ∧ (Forall (λ x, UserSession.session_token x ≠ tok) l2 →
            logout request db' = (Ok success, db')))
    ∧ ∃ db'', logout request db' = (Ok success, db'').
Proof.
  intros tok0 success. change success with logged_out.
  assert (tok0 = request_session_token request) as Htok0 by reflexivity.
  set (tok := request_session_token request) in *. clearbody tok0. subst tok0.
  destruct (decide (tok = "")) as [Htok|Htok].
  { exists db. rewrite logout_no_token by done.
    split_and!; try done. first [apply logout_total|by eexists]. }
  destruct (find_one (λ s, UserSession.session_token s = tok) (user_sessions db))
    as [s1|] eqn:Efind.
  - destruct (find_one_split _ _ _ Efind) as (l1 & l2 & Hcoll & Hl1 & Hq & _).
    exists (mkdb (users db) (l1 ++ l2) (transactions db)).
    rewrite (logout_first_match request db l1 s1 l2) by done.
    split_and!; try done.
    + intros Hno. destruct (Hno s1); [|done]. rewrite Hcoll. set_solver.
    + intros _ s Hs Hst. exists l1, s1, l2. split_and!; try done.
      intros Hl2. apply logout_no_match. simpl. intros x Hx.
      apply elem_of_app in Hx as [Hx|Hx].
      * rewrite Forall_forall in Hl1. by apply Hl1.
      * rewrite Forall_forall in Hl2. by apply Hl2.
    + first [apply logout_total|by eexists].
  - apply find_one_None in Efind. rewrite Forall_forall in Efind.
    exists db. rewrite logout_no_match by done.
    split_and!; try done.
    + intros _ s Hs Hst. by destruct (Efind s Hs).
    + first [apply logout_total|by eexists].
Qed.

(** On the sample database: a logout carrying [alice]'s token in a bearer
    header removes her session row and keeps [bob]'s; one carrying [bob]'s
    token in a cookie removes his and keeps hers; one carrying an unknown
    token, and one carrying none, remove nothing. *)
Lemma C8_logout_always_succeeds_witness :
  logout (bearer_request "tok-alice") sample_db
  = (Ok logged_out, mkdb [alice; bob] [bob_session] (transactions sample_db))
  ∧ logout (mkreq {[ "session_token" := "tok-bob" ]} ∅) sample_db
    = (Ok logged_out, mkdb [alice; bob] [alice_session] (transactions sample_db))
  ∧ logout (bearer_request "tok-carol") sample_db = (Ok logged_out, sample_db)
  ∧ logout (mkreq ∅ ∅) sample_db = (Ok logged_out, sample_db).
Proof.
  assert (alice_session ∈ user_sessions sample_db) as Ha
    by (apply elem_of_cons; by left).
  assert (bob_session ∈ user_sessions sample_db) as Hb
    by (apply elem_of_cons; right; apply elem_of_cons; by left).
  split_and!.
  - pose proof (C8_logout_always_succeeds sample_db (bearer_request "tok-alice"))
      as H.
    cbv zeta in H. destruct H as (db' & -> & Hu & Ht & _ & _ & Hmatch & _).
    destruct Hmatch with (s := alice_session)
      as (l1 & s1 & l2 & Hcoll & _ & Hl1 & Hss & _);
      [vm_compute; discriminate|exact Ha|vm_compute; reflexivity|].
    destruct db' as [us ss ts]. simpl in Hu, Ht, Hss. subst us ts.
    destruct l1 as [|x l1].
    + simpl in Hcoll. injection Hcoll as <- <-. by subst ss.
    + exfalso. simpl in Hcoll. injection Hcoll as <- _.
      apply Forall_cons in Hl1 as [Hx _]. apply Hx. vm_compute. reflexivity.
  - pose proof (C8_logout_always_succeeds sample_db
                  (mkreq {[ "session_token" := "tok-bob" ]} ∅)) as H.
    cbv zeta in H. destruct H as (db' & -> & Hu & Ht & _ & _ & Hmatch & _).
    destruct Hmatch with (s := bob_session)
      as (l1 & s1 & l2 & Hcoll & Hs1 & _ & Hss & _);
      [vm_compute; discriminate|exact Hb|vm_compute; reflexivity|].
    destruct db' as [us ss ts]. simpl in Hu, Ht, Hss. subst us ts.
    destruct l1 as [|x [|y l1]].
    + exfalso. simpl in Hcoll. injection Hcoll as <- _.
      vm_compute in Hs1. discriminate.
    + simpl in Hcoll. injection Hcoll as <- <- <-. by subst ss.
    + exfalso. simpl in Hcoll. injection Hcoll as _ _ Hnil.
      by destruct l1.
  - pose proof (C8_logout_always_succeeds sample_db (bearer_request "tok-carol"))
      as H.
    cbv zeta in H. destruct H as (db' & -> & _ & _ & _ & Hno & _).
    rewrite Hno; [done|]. intros s Hs.
    apply elem_of_cons in Hs as [->|Hs]; [vm_compute; discriminate|].
    apply list_elem_of_singleton in Hs as ->. vm_compute. discriminate.
  - pose proof (C8_logout_always_succeeds sample_db (mkreq ∅ ∅)) as H.
    cbv zeta in H. destruct H as (db' & -> & _ & _ & Hempty & _).
    rewrite Hempty; [done|]. vm_compute. reflexivity.
Defined.

(** ** Login exchange *)

(** C9, as the code has it.  When the provider answers 200 with
    [{email, name, picture, session_token}], the user is looked up by
    email alone.  If no user has that email, one is stored with the drawn
    id, the provider's name and picture and the current time in whole
    milliseconds, and the record returned carries that time as drawn;
    otherwise the first user with that email is returned and the users
    are left as they were, whatever name and picture the provider sent.
    In both cases one session row is appended, carrying the user's id,
    the returned token and [expires_at = now + 7 days] in whole
    milliseconds; transactions are not touched. *)
Theorem C9_login_exchange db request provider g session_id email name picture token :
  headers request !! "x-session-id" = Some session_id →
  session_id ≠ "" →
  provider session_id
  = Response 200 (mkdata (Some email) (Some name) (Some picture) (Some token)) →
  ∃ user users',
    get_session_data request provider g db
    = (Ok (mksd user token),
       mkdb users'
            (user_sessions db
               ++ [UserSession.mk (session_uuid g) (User.id user) token
                     (to_millis (expiry_now g + timedelta_days 7))
                     (to_millis (session_now g))])
            (transactions db))
    ∧ match find_one (λ u, User.email u = email) (users db) with
      | Some existing => user = existing ∧ users' = users db
      | None =>
          user = User.mk (user_uuid g) email name picture (user_now g)
          ∧ users' = users db
                       ++ [User.mk (user_uuid g) email name picture
                                   (to_millis (user_now g))]
      end.
Proof.
  intros Hh Hsid Hp. unfold get_session_data. rewrite Hh.
  destruct session_id as [|c sid]; [done|]. rewrite Hp.
  case_decide; [done|]. unfold bind, read, field, ret. simpl.
  destruct (find_one (λ u, User.email u = email) (users db)) as [existing|];
    eexists _, _; (split; [reflexivity|done]).
Qed.

Lemma C9_login_exchange_witness :
  let request := mkreq ∅ {[ "x-session-id" := "sid-1" ]} in
  let data := mkdata (Some "alice@example.com") (Some "Alice Renamed")
                     (Some "https://example.com/new.png") (Some "tok-alice-2") in
  let g := mkdraw "u-new" 5 (sample_now + 500) "s-new" 1700000000000007 in
  get_session_data request (λ _, Response 200 data) g sample_db
  = (Ok (mksd alice "tok-alice-2"),
     mkdb [alice; bob]
          [alice_session; bob_session;
           UserSession.mk "s-new" "u-alice" "tok-alice-2"
                          (sample_now + 604800000000) 1700000000000000]
          (transactions sample_db)).
Proof.
  intros request data g.
  destruct (C9_login_exchange sample_db request (λ _, Response 200 data) g
              "sid-1" "alice@example.com" "Alice Renamed"
              "https://example.com/new.png" "tok-alice-2")
    as (user & users' & Hrun & Hcase).
  - vm_compute. reflexivity.
  - discriminate.
  - reflexivity.
  - assert (find_one (λ u, User.email u = "alice@example.com") (users sample_db)
            = Some alice) as Hfind by (vm_compute; reflexivity).
    rewrite Hfind in Hcase. destruct Hcase as [-> ->]. exact Hrun.
Defined.

(** C9 as stated fails below the millisecond: with the clock at
    2024-03-11T00:00:00.000500Z the session row is stored with
    [expires_at] 2024-03-18T00:00:00.000Z, which is not that clock value
    plus seven days. *)
Lemma C9_session_expiry_is_in_milliseconds :
  ∃ r db' s,
    get_session_data (mkreq ∅ {[ "x-session-id" := "sid-1" ]})
      (λ _, Response 200
              (mkdata (Some "alice@example.com") (Some "Alice")
                      (Some "https://example.com/alice.png") (Some "tok-alice-2")))
      (mkdraw "u-new" 5 (sample_now + 500) "s-new" sample_now) sample_db
    = (Ok r, db')
    ∧ last (user_sessions db') = Some s
    ∧ UserSession.session_token s = "tok-alice-2"
    ∧ UserSession.expires_at s = sample_now + timedelta_days 7
    ∧ UserSession.expires_at s ≠ (sample_now + 500) + timedelta_days 7.
Proof.
  eexists _, _, _. split_and!.
  - vm_compute. reflexivity.
  - reflexivity.
  - reflexivity.
  - vm_compute. reflexivity.
  - vm_compute. discriminate.
Qed.

(** ** The invariants hold on every reachable database *)

Lemma require_user_cases request now db :
  (∃ u, require_user request now db = (Ok u, db))
  ∨ require_user request now db = (Raise not_authenticated, db).
Proof.
  destruct (get_current_user_read_only request now db) as [[u|] H].
  - left. exists u. by apply require_user_Some.
  - right. by apply require_user_None.
Qed.

Lemma update_one_ids q `{!∀ x, Decision (q x)} d (coll : list Transaction.t) :
  Transaction.id <$> update_one q (set_fields d) coll = Transaction.id <$> coll.
Proof.
  unfold update_one. destruct (list_find q coll) as [[i x]|] eqn:E; [|done].
  apply list_find_Some in E as (Hi & _ & _).
  rewrite list_fmap_insert. apply list_insert_id.
  by rewrite list_lookup_fmap, Hi.
Qed.

(** What [get_session_data] may write, on every path: never a
    transaction; at most one user, appended, with the drawn id and an
    email no stored user has; at most one session, appended, that names a
    stored user. *)
Lemma get_session_data_writes request provider g db :
  let db' := (get_session_data request provider g db).2 in
  transactions db' = transactions db
  ∧ (users db' = users db
     ∨ ∃ new_user,
         users db' = users db ++ [new_user]
         ∧ User.id new_user = user_uuid g
         ∧ find_one (λ u, User.email u = User.email new_user) (users db) = None)
  ∧ (user_sessions db' = user_sessions db
     ∨ ∃ s, user_sessions db' = user_sessions db ++ [s]
            ∧ UserSession.user_id s ∈ User.id <$> users db').
Proof.
  cbn zeta. unfold get_session_data.
  destruct (headers request !! "x-session-id") as [[|c sid]|];
    try (simpl; split_and!; [done|by left|by left]).
  destruct (provider _) as [|status data];
    [simpl; split_and!; [done|by left|by left]|].
  case_decide; [simpl; split_and!; [done|by left|by left]|].
  unfold bind, read, field, ret, raise.
  destruct (data_email data) as [email|];
    [|simpl; split_and!; [done|by left|by left]].
  destruct (find_one (λ u, User.email u = email) (users db)) as [existing|] eqn:E.
  - destruct (data_session_token data) as [token|];
      [|simpl; split_and!; [done|by left|by left]].
    simpl. split_and!; [done|by left|]. right. eexists. split; [reflexivity|].
    simpl. apply find_one_Some in E as [Hin _]. by apply list_elem_of_fmap_2.
  - destruct (data_name data) as [name|];
      [|simpl; split_and!; [done|by left|by left]].
    destruct (data_picture data) as [picture|];
      [|simpl; split_and!; [done|by left|by left]].
    destruct (data_session_token data) as [token|]; simpl.
    + split_and!; [done| |].
      * right. eexists. split; [reflexivity|]. by split.
      * right. eexists. split; [reflexivity|]. simpl. unfold insert_one.
        rewrite fmap_app. apply elem_of_app. right.
        by apply list_elem_of_singleton.
    + split_and!; [done| |by left].
      right. eexists. split; [reflexivity|]. by split.
Qed.

(** The transaction handlers write to [db.transactions] only; the
    authentication handlers never write to it. *)
Lemma run_call_frame c db :
  match c with
  | CallSessionData _ _ _ | CallLogout _ =>
      transactions (run_call c db) = transactions db
  | _ =>
      users (run_call c db) = users db
      ∧ user_sessions (run_call c db) = user_sessions db
  end.
Proof.
  destruct c as [request provider g|request|d request now uuid4 created_now
                 |tid d request now|tid request now]; simpl.
  - by destruct (get_session_data_writes request provider g db) as [? _].
  - unfold logout, bind. case_decide; [done|].
    unfold user_sessions_delete_one. by destruct (delete_one _ _).
  - unfold create_transaction, bind.
    by destruct (require_user_cases request now db) as [[u ->]| ->].
  - unfold update_transaction, bind.
    destruct (require_user_cases request now db) as [[u ->]| ->]; [|done].
    unfold read. destruct (find_one _ (transactions db)); [|done].
    destruct (update_data_empty d); simpl.
    + by destruct (find_one _ (transactions db)).
    + by destruct (find_one _ _).
  - unfold delete_transaction, bind.
    destruct (require_user_cases request now db) as [[u ->]| ->]; [|done].
    unfold transactions_delete_one. destruct (delete_one _ _) as [coll n].
    by case_decide.
Qed.

Lemma sessions_reference_users_step c db :
  sessions_reference_users db → sessions_reference_users (run_call c db).
Proof.
  unfold sessions_reference_users. intros Hinv.
  destruct c as [request provider g|request|d request now uuid4 created_now
                 |tid d request now|tid request now];
    try (by destruct (run_call_frame (CallCreate d request now uuid4 created_now) db)
           as [-> ->]);
    try (by destruct (run_call_frame (CallUpdate tid d request now) db) as [-> ->]);
    try (by destruct (run_call_frame (CallDelete tid request now) db) as [-> ->]).
  - simpl.
    destruct (get_session_data_writes request provider g db) as (_ & Hu & Hs).
    cbn zeta in Hu, Hs.
    assert (Forall (λ s, UserSession.user_id s
                         ∈ User.id <$> users (get_session_data request provider g db).2)
                   (user_sessions db)) as Hold.
    { eapply Forall_impl; [done|]. intros s Hin.
      destruct Hu as [->|(new_user & -> & _)]; [done|].
      rewrite fmap_app. apply elem_of_app. by left. }
    destruct Hs as [->|(s & -> & Hin)]; [done|].
    apply Forall_app. split; [done|]. by apply Forall_singleton.
  - simpl. unfold logout, bind. case_decide; [done|].
    unfold user_sessions_delete_one, delete_one.
    destruct (list_find _ (user_sessions db)) as [[i x]|]; [|done].
    simpl. by apply Forall_delete.
Qed.

Lemma unique_transaction_ids_step c db :
  uuid4_fresh c db →
  unique_transaction_ids db → unique_transaction_ids (run_call c db).
Proof.
  unfold unique_transaction_ids. intros Hfresh Hinv.
  destruct c as [request provider g|request|d request now uuid4 created_now
                 |tid d request now|tid request now];
    try (by rewrite (run_call_frame (CallSessionData request provider g) db));
    try (by rewrite (run_call_frame (CallLogout request) db)); simpl in *.
  - unfold create_transaction, bind.
    destruct (require_user_cases request now db) as [[u ->]| ->]; [|done].
    simpl. unfold insert_one. rewrite fmap_app. apply NoDup_app.
    split_and!; [done| |apply NoDup_singleton].
    intros x Hx. simpl. rewrite list_elem_of_singleton. by intros ->.
  - unfold update_transaction, bind.
    destruct (require_user_cases request now db) as [[u ->]| ->]; [|done].
    unfold read. destruct (find_one _ (transactions db)); [|done].
    destruct (update_data_empty d); simpl.
    + by destruct (find_one _ (transactions db)).
    + destruct (find_one _ _); simpl; by rewrite update_one_ids.
  - unfold delete_transaction, bind.
    destruct (require_user_cases request now db) as [[u ->]| ->]; [|done].
    unfold transactions_delete_one, delete_one.
    destruct (list_find _ (transactions db)) as [[i x]|]; [|done].
    assert (NoDup (Transaction.id <$> delete i (transactions db))).
    { rewrite list_fmap_delete. eapply sublist_NoDup; [done|apply sublist_delete]. }
    by case_decide.
Qed.

(** Both invariants hold on every database the handlers can produce from
    the empty one. *)
Lemma reachable_invariants db :
  reachable db → sessions_reference_users db ∧ unique_transaction_ids db.
Proof.
  induction 1 as [|c db Hr [IH1 IH2] Hfresh].
  - split; [apply Forall_nil_2|apply NoDup_nil_2].
  - split; [by apply sessions_reference_users_step
           |by apply unique_transaction_ids_step].
Qed.

(** ** Dashboard statistics *)

Lemma breakdown_step_lookup m t c :
  breakdown_step m t !! c
  = if decide (Transaction.category t = c)
    then Some (default 0%float (m !! c) + Transaction.amount t)%float
    else m !! c.
Proof.
  unfold breakdown_step.
  destruct (decide (Transaction.category t = c)) as [Hc|Hc].
  - subst c. rewrite lookup_alter_eq.
    destruct (decide (m !! Transaction.category t = None)) as [Hm|Hm].
    + by rewrite lookup_insert_eq, Hm.
    + by destruct (m !! Transaction.category t).
  - rewrite lookup_alter_ne by done.
    case_decide; [|done]. by rewrite lookup_insert_ne.
Qed.

(** The category loop from any starting dictionary: a category's total is
    its starting value (or [0]) with the amounts of its rows added from
    the left. *)
Lemma breakdown_fold_lookup rows m c :
  foldl breakdown_step m rows !! c
  = match m !! c with
    | Some total =>
        Some (foldl PrimFloat.add total
                (Transaction.amount <$> filter (λ t, Transaction.category t = c) rows))
    | None =>
        if decide (c ∈ Transaction.category <$> rows)
        then Some (py_sum (Transaction.amount
                             <$> filter (λ t, Transaction.category t = c) rows))
        else None
    end.
Proof.
  revert m. induction rows as [|t rows IH]; intros m.
  { simpl. by destruct (m !! c). }
  simpl. rewrite IH, breakdown_step_lookup, filter_cons.
  destruct (decide (Transaction.category t = c)) as [Hc|Hc].
  - destruct (m !! c); simpl; [done|].
    unfold py_sum. rewrite decide_True; [reflexivity|].
    rewrite Hc. apply elem_of_cons. by left.
  - destruct (m !! c); [done|].
    destruct (decide (c ∈ Transaction.category <$> rows)) as [Hin|Hin].
    + rewrite decide_True; [done|]. apply elem_of_cons. by right.
    + rewrite decide_False; [done|]. intros [?|?]%elem_of_cons; done.
Qed.

Lemma get_dashboard_stats_run db request now u :
  get_current_user request now db = (Ok (Some u), db) →
  get_dashboard_stats request now db
  = (Ok (dashboard_stats_of
           (take 1000 (filter (λ t, Transaction.user_id t = User.id u)
                              (transactions db)))), db).
Proof.
  intros Hu. apply require_user_Some in Hu.
  unfold get_dashboard_stats, bind. by rewrite Hu.
Qed.

(** C3, as the code has it.  The statistics are computed over the first
    1000 of the caller's rows in collection order (all of them when the
    caller has at most 1000): [total_income] and [total_expenses] are the
    sums of the amounts of the rows of type income and expense,
    [balance] is their difference, [transactions_count] is the number of
    those rows, and [category_breakdown] has an entry for each category
    of those rows and no other, holding the sum of the amounts of the
    rows of that category, whatever their type. *)
Theorem C3_dashboard_stats_first_1000 db request now u :
  get_current_user request now db = (Ok (Some u), db) →
  let mine := filter (λ t, Transaction.user_id t = User.id u) (transactions db) in
  let rows := take 1000 mine in
  ∃ stats,
    get_dashboard_stats request now db = (Ok stats, db)
    ∧ DashboardStats.total_income stats
      = py_sum (Transaction.amount
                  <$> filter (λ t, Transaction.type t = "income") rows)
    ∧ DashboardStats.total_expenses stats
      = py_sum (Transaction.amount
                  <$> filter (λ t, Transaction.type t = "expense") rows)
    ∧ DashboardStats.balance stats
      = (DashboardStats.total_income stats - DashboardStats.total_expenses stats)%float
    ∧ DashboardStats.transactions_count stats = length rows
    ∧ (∀ c, DashboardStats.category_breakdown stats !! c
            = if decide (c ∈ Transaction.category <$> rows)
              then Some (py_sum (Transaction.amount
                                   <$> filter (λ t, Transaction.category t = c) rows))
              else None)
    ∧ ((length mine ≤ 1000)%nat → rows = mine).
Proof.
  intros Hu mine rows. eexists. split; [by apply get_dashboard_stats_run|].
  fold mine. fold rows. simpl. split_and!; try done.
  - intros c. by rewrite breakdown_fold_lookup, lookup_empty.
  - intros Hle. by apply take_ge.
Qed.

(** The scenario: expense 50 Food, income 2000 Salary, expense 20 Food
    (next to a row of another user). *)
Lemma C3_dashboard_stats_scenario :
  get_dashboard_stats (bearer_request "tok-alice") sample_now sample_db
  = (Ok (DashboardStats.mk 2000 70 1930 3 {[ "Food" := 70%float; "Salary" := 2000%float ]}),
     sample_db).
Proof.
  destruct (C3_dashboard_stats_first_1000 sample_db (bearer_request "tok-alice")
              sample_now alice) as (stats & Hrun & _).
  - vm_compute. reflexivity.
  - rewrite Hrun. f_equal. f_equal.
    assert (get_dashboard_stats (bearer_request "tok-alice") sample_now sample_db
            = (Ok (DashboardStats.mk 2000 70 1930 3
                     {[ "Food" := 70%float; "Salary" := 2000%float ]}), sample_db))
      as Hval by (vm_compute; reflexivity).
    rewrite Hrun in Hval. by injection Hval.
Defined.

(** C3 as stated fails past 1000 rows: the caller owns 1001 rows and the
    dashboard counts 1000 of them. *)
Lemma C3_counts_at_most_1000_rows :
  ∃ stats,
    get_dashboard_stats (bearer_request "tok-alice") sample_now crowded_db
    = (Ok stats, crowded_db)
    ∧ length (filter (λ t, Transaction.user_id t = "u-alice")
                     (transactions crowded_db)) = 1001%nat
    ∧ DashboardStats.transactions_count stats = 1000%nat
    ∧ DashboardStats.total_expenses stats = 1000%float
    ∧ py_sum (Transaction.amount
                <$> filter (λ t, Transaction.type t = "expense")
                      (filter (λ t, Transaction.user_id t = "u-alice")
                              (transactions crowded_db))) = 1001%float.
Proof.
  eexists. split; [apply (get_dashboard_stats_run _ _ _ alice)|].
  - vm_compute. reflexivity.
  - vm_compute. repeat split; reflexivity.
Qed.

(** ** Monthly analytics *)



Lemma get_monthly_analytics_run db request now end_date u :
  get_current_user request now db = (Ok (Some u), db) →
  get_monthly_analytics request now end_date db
  = (Ok (foldl monthly_step ∅
           (take 1000
              (filter (monthly_query (User.id u)
                         (end_date - timedelta_days 365) end_date)
                      (transactions db)))), db).
Proof.
  intros Hu. apply require_user_Some in Hu.
  unfold get_monthly_analytics, bind. by rewrite Hu.
Qed.


(** C4, at the input where the code leaves the claim.  A row of type
    ["refund"] dated 2024-03-01 lands in the [expenses] of March 2024,
    while the amounts of type expense in that month sum to [0] and the
    dashboard's [total_expenses] over the same rows is [0]. *)
Theorem C4_monthly_expenses_take_every_other_type :
  get_monthly_analytics (bearer_request "tok-alice") sample_now sample_now refund_db
  = (Ok {[ "2024-03" := mkmonth 0 30 ]}, refund_db)
  ∧ py_sum (Transaction.amount
              <$> filter (λ t, strftime_Ym (Transaction.date t) = "2024-03"
                               ∧ Transaction.type t = "expense")
                    (transactions refund_db)) = 0%float
  ∧ ∃ stats,
      get_dashboard_stats (bearer_request "tok-alice") sample_now refund_db
      = (Ok stats, refund_db)
      ∧ DashboardStats.total_expenses stats = 0%float.
Proof.
  split_and!.
  - vm_compute. reflexivity.
  - vm_compute. reflexivity.
  - eexists. split; [apply (get_dashboard_stats_run _ _ _ alice)|].
    + vm_compute. reflexivity.
    + vm_compute. reflexivity.
Qed.

(** On the scenario rows the buckets are as the claim describes. *)
Example monthly_analytics_scenario :
  get_monthly_analytics (bearer_request "tok-alice") sample_now sample_now sample_db
  = (Ok {[ "2024-03" := mkmonth 2000 70 ]}, sample_db).
Proof. vm_compute. reflexivity. Qed.

(** ** Listing transactions *)

Global Instance date_desc_total : Total date_desc.
Proof. intros t1 t2. unfold date_desc. lia. Qed.

Global Instance date_desc_trans : Transitive date_desc.
Proof. intros t1 t2 t3. unfold date_desc. lia. Qed.


Lemma parse_bound_pure fromisoformat param db r db' :
  parse_bound fromisoformat param db = (r, db') → db' = db.
Proof.
  unfold parse_bound. destruct (truthy param) as [text|].
  - destruct (fromisoformat _); by intros [= _ <-].
  - by intros [= _ <-].
Qed.

(** A bound that [parse_bound] returns comes from a non-empty parameter
    that [fromisoformat] accepts once its ["Z"] is rewritten. *)
Lemma parse_bound_Ok fromisoformat param db bound :
  parse_bound fromisoformat param db = (Ok bound, db) ↔
  match truthy param with
  | None => bound = None
  | Some text =>
      ∃ d, fromisoformat (replace "Z" "+00:00" text) = Some d ∧ bound = Some d
  end.
Proof.
  unfold parse_bound. destruct (truthy param) as [text|].
  - destruct (fromisoformat _) as [d|]; unfold ret, raise; split.
    + intros [= <-]. by exists d.
    + by intros (d' & [= <-] & ->).
    + done.
    + by intros (d' & ? & _).
  - unfold ret. split; [by intros [= <-]|by intros ->].
Qed.

Lemma get_transactions_run fromisoformat db request now u category
    start_date end_date gte lte :
  get_current_user request now db = (Ok (Some u), db) →
  parse_bound fromisoformat start_date db = (Ok gte, db) →
  parse_bound fromisoformat end_date db = (Ok lte, db) →
  get_transactions fromisoformat request now category start_date end_date db
  = (Ok (take 1000
           (sort_date_desc
              (filter (list_query_matches
                         (mkquery (User.id u) (truthy category) gte lte))
                      (transactions db)))), db).
Proof.
  intros Hu Hgte Hlte. apply require_user_Some in Hu.
  unfold get_transactions, bind. by rewrite Hu, Hgte, Hlte.
Qed.




(** ** The sample database is one the handlers produce *)

(** Two logins and four creations, from the empty database. *)
Example sample_db_reachable : reachable sample_db.
Proof.
  pose (login_of (sid email name picture token uid sess : string) (created : Z) :=
          CallSessionData
            (mkreq ∅ {[ "x-session-id" := sid ]})
            (λ _, Response 200 (mkdata (Some email) (Some name) (Some picture)
                                        (Some token)))
            (mkdraw uid created (1800000000000000 - timedelta_days 7)
                    sess 1700000000000000)).
  pose (create_of (token type category description id : string)
                  (amount : float) (date : Z) :=
          CallCreate (TransactionCreate.mk type amount category description date)
                     (bearer_request token) 1710100000000000 id 1710100000000000).
  pose (c1 := login_of "sid-a" "alice@example.com" "Alice"
                "https://example.com/alice.png" "tok-alice" "u-alice" "s-alice" 1000).
  pose (c2 := login_of "sid-b" "bob@example.com" "Bob"
                "https://example.com/bob.png" "tok-bob" "u-bob" "s-bob" 2000).
  pose (c3 := create_of "tok-alice" "expense" "Food" "Lunch" "t-1"
                50%float 1709294400000000).
  pose (c4 := create_of "tok-alice" "income" "Salary" "March salary" "t-2"
                2000%float 1709640000000000).
  pose (c5 := create_of "tok-alice" "expense" "Food" "Snack" "t-3"
                20%float 1710072000000000).
  pose (c6 := create_of "tok-bob" "expense" "Rent" "Flat" "t-4"
                900%float 1709294400000000).
  assert (sample_db
          = run_call c6 (run_call c5 (run_call c4 (run_call c3
              (run_call c2 (run_call c1 empty_db)))))) as ->
    by (vm_compute; reflexivity).
  repeat (apply reachable_call; [|first [exact I
      |apply (bool_decide_unpack _); vm_compute; exact I]]).
  apply reachable_empty.
Qed.

(** Isolation on every reachable database: a row of another owner is
    never found through the caller's requests. *)
Corollary reachable_foreign_row_hidden db request now a t d :
  reachable db →
  get_current_user request now db = (Ok (Some a), db) →
  t ∈ transactions db → Transaction.user_id t ≠ User.id a →
  get_transaction (Transaction.id t) request now db
    = (Raise transaction_not_found, db)
  ∧ update_transaction (Transaction.id t) d request now db
    = (Raise transaction_not_found, db)
  ∧ delete_transaction (Transaction.id t) request now db
    = (Raise transaction_not_found, db).
Proof.
  intros [_ Hids]%reachable_invariants Ha Ht Hne.
  apply (single_row_handlers_not_found db request now a); [done|].
  by apply foreign_row_not_found.
Qed.

(** On every reachable database a session that has not expired resolves
    to a user. *)
Corollary reachable_live_session_resolves db request now s :
  reachable db →
  s ∈ user_sessions db →
  request_session_token request ≠ "" →
  UserSession.session_token s = request_session_token request →
  now < UserSession.expires_at s →
  ∃ u, get_current_user request now db = (Ok (Some u), db).
Proof.
  intros [Href _]%reachable_invariants Hs Htok Hst Hexp.
  unfold get_current_user. rewrite decide_False by done.
  unfold bind, read, ret.
  destruct (find_one_is_Some
              (session_query (request_session_token request) now)
              (user_sessions db) s Hs) as [s' Es']; [done|].
  rewrite Es'. apply find_one_Some in Es' as [Hs' _].
  unfold sessions_reference_users in Href. rewrite Forall_forall in Href.
  specialize (Href s' Hs'). apply list_elem_of_fmap in Href as (u & Hu & Hin).
  destruct (find_one_is_Some (λ u, User.id u = UserSession.user_id s')
              (users db) u Hin) as [u' ->]; [done|].
  by exists u'.
Qed.

(** * Further properties of the handlers *)

(** ** The guard of the protected routes *)

(** X1. A request that resolves to no user is refused by every protected
    route with 401 before anything else happens: nothing is written, a
    malformed date is not even parsed, and no id is looked up. *)
Theorem unauthenticated_requests_are_refused fromisoformat db request now :
  get_current_user request now db = (Ok None, db) →
  get_current_user_info request now db = (Raise not_authenticated, db)
  ∧ (∀ d uuid4 created_now,
       create_transaction d request now uuid4 created_now db
       = (Raise not_authenticated, db))
  ∧ (∀ category start_date end_date,
       get_transactions fromisoformat request now category start_date end_date db
       = (Raise not_authenticated, db))
  ∧ (∀ tid, get_transaction tid request now db = (Raise not_authenticated, db))
  ∧ (∀ tid d, update_transaction tid d request now db = (Raise not_authenticated, db))
  ∧ (∀ tid, delete_transaction tid request now db = (Raise not_authenticated, db))
  ∧ get_dashboard_stats request now db = (Raise not_authenticated, db)
  ∧ (∀ end_date,
       get_monthly_analytics request now end_date db = (Raise not_authenticated, db)).
Proof.
  intros H. apply require_user_None in H. split_and!; intros;
    unfold get_current_user_info, create_transaction, get_transactions,
      get_transaction, update_transaction, delete_transaction,
      get_dashboard_stats, get_monthly_analytics, bind;
    by rewrite H.
Qed.

Lemma unauthenticated_requests_are_refused_witness :
  get_current_user_info (mkreq ∅ ∅) sample_now sample_db
  = (Raise not_authenticated, sample_db)
  ∧ get_transactions (λ _, None) (bearer_request "tok-nobody") sample_now
      None (Some "not a date") None sample_db
    = (Raise not_authenticated, sample_db)
  ∧ delete_transaction "t-1" (bearer_request "tok-nobody") sample_now sample_db
    = (Raise not_authenticated, sample_db).
Proof.
  split_and!.
  - apply (unauthenticated_requests_are_refused (λ _, None) sample_db
             (mkreq ∅ ∅) sample_now).
    vm_compute. reflexivity.
  - apply (unauthenticated_requests_are_refused (λ _, None) sample_db
             (bearer_request "tok-nobody") sample_now).
    vm_compute. reflexivity.
  - apply (unauthenticated_requests_are_refused (λ _, None) sample_db
             (bearer_request "tok-nobody") sample_now).
    vm_compute. reflexivity.
Defined.

(** ** The failures of the login exchange *)

(** X2. [get_session_data] fails in three declared ways and in none of
    them writes: 400 when the [X-Session-ID] header is missing or empty
    (the provider is not consulted), 500 when the call to the provider
    fails, 401 when the provider answers with a status other than 200.
    A 200 answer that lacks a field raises an exception nothing catches:
    without an email, with a new email but no name or no picture, or with
    a known email but no session token, nothing is written; with a new
    email, a name and a picture but no session token, the user is stored
    first and the exception comes after, so the user stays without a
    session.  Whenever the handler raises, sessions and transactions are
    as they were, and so are the users unless the exception is the
    uncaught one. *)
Theorem get_session_data_failures db request provider g :
  (headers request !! "x-session-id" = None
   ∨ headers request !! "x-session-id" = Some "" →
   get_session_data request provider g db
   = (Raise (mkexc 400 "Session ID required"), db))
  ∧ (∀ c sid,
       headers request !! "x-session-id" = Some (String c sid) →
       provider (String c sid) = RequestError →
       get_session_data request provider g db
       = (Raise (mkexc 500 "Authentication service error"), db))
  ∧ (∀ c sid status data,
       headers request !! "x-session-id" = Some (String c sid) →
       provider (String c sid) = Response status data →
       status ≠ 200 →
       get_session_data request provider g db
       = (Raise (mkexc 401 "Invalid session"), db))
  ∧ (∀ c sid data,
       headers request !! "x-session-id" = Some (String c sid) →
       provider (String c sid) = Response 200 data →
       (data_email data = None →
        get_session_data request provider g db = (Raise internal_server_error, db))
       ∧ (∀ email,
            data_email data = Some email →
            find_one (λ u, User.email u = email) (users db) = None →
            data_name data = None ∨ data_picture data = None →
            get_session_data request provider g db
            = (Raise internal_server_error, db))
       ∧ (∀ email existing,
            data_email data = Some email →
            find_one (λ u, User.email u = email) (users db) = Some existing →
            data_session_token data = None →
            get_session_data request provider g db
            = (Raise internal_server_error, db))
       ∧ (∀ email name picture,
            data_email data = Some email →
            find_one (λ u, User.email u = email) (users db) = None →
            data_name data = Some name →
            data_picture data = Some picture →
            data_session_token data = None →
            get_session_data request provider g db
            = (Raise internal_server_error,
               mkdb (users db
                       ++ [User.mk (user_uuid g) email name picture
                                   (to_millis (user_now g))])
                    (user_sessions db) (transactions db))))
  ∧ (∀ e db',
       get_session_data request provider g db = (Raise e, db') →
       user_sessions db' = user_sessions db
       ∧ transactions db' = transactions db
       ∧ (e ≠ internal_server_error → db' = db)).
Proof.
  unfold get_session_data. split_and!.
  - by intros [-> | ->].
  - by intros c sid -> ->.
  - intros c sid status data -> -> Hs. by rewrite decide_True.
  - intros c sid data -> ->. rewrite decide_False by (by intros ?).
    unfold bind, read, field, ret, raise. split_and!.
    + by intros ->.
    + intros email -> -> [->| ->]; [done|]. by destruct (data_name data).
    + by intros email existing -> -> ->.
    + by intros email name picture -> -> -> -> ->.
  - intros e db'.
    destruct (headers request !! "x-session-id") as [[|c sid]|];
      try by intros [= <- <-].
    destruct (provider _) as [|status data]; [by intros [= <- <-]|].
    case_decide; [by intros [= <- <-]|].
    unfold bind, read, field, ret, raise.
    destruct (data_email data) as [email|]; [|by intros [= <- <-]].
    destruct (find_one _ (users db)) as [existing|].
    + destruct (data_session_token data); [done|]. by intros [= <- <-].
    + destruct (data_name data); [|by intros [= <- <-]].
      destruct (data_picture data); [|by intros [= <- <-]].
      destruct (data_session_token data); [done|]. simpl.
      by intros [= <- <-].
Qed.

(** ** Routes that only read *)

(** X7. The five reading routes never change the database, whatever the
    request and whether they return or raise. *)
Theorem read_routes_never_write fromisoformat db request now :
  (get_current_user_info request now db).2 = db
  ∧ (∀ category start_date end_date,
       (get_transactions fromisoformat request now category start_date end_date db).2
       = db)
  ∧ (∀ tid, (get_transaction tid request now db).2 = db)
  ∧ (get_dashboard_stats request now db).2 = db
  ∧ (∀ end_date, (get_monthly_analytics request now end_date db).2 = db).
Proof.
  unfold get_current_user_info, get_transactions, get_transaction,
    get_dashboard_stats, get_monthly_analytics, bind.
  destruct (require_user_cases request now db) as [[u ->]| ->];
    [|by split_and!].
  split_and!; try done.
  - intros category start_date end_date.
    destruct (parse_bound fromisoformat start_date db) as [[gte|e] db1] eqn:E1;
      apply parse_bound_pure in E1 as ->; [|done].
    destruct (parse_bound fromisoformat end_date db) as [[lte|e] db2] eqn:E2;
      by apply parse_bound_pure in E2 as ->.
  - intros tid. unfold read. by destruct (find_one _ (transactions db)).
Qed.

(** ** Deleting, updating and reading one row *)

(** X3. Deleting a row the caller owns returns the success message and
    removes that row alone, the others keeping their order; with unique
    ids, reading the id afterwards and deleting it a second time both
    give the not-found signal. *)
Theorem delete_then_not_found db request now u tid t :
  unique_transaction_ids db →
  get_current_user request now db = (Ok (Some u), db) →
  find_one (owned_query tid (User.id u)) (transactions db) = Some t →
  ∃ l1 l2 db',
    transactions db = l1 ++ t :: l2
    ∧ db' = mkdb (users db) (user_sessions db) (l1 ++ l2)
    ∧ delete_transaction tid request now db
      = (Ok "Transaction deleted successfully", db')
    ∧ get_transaction tid request now db' = (Raise transaction_not_found, db')
    ∧ delete_transaction tid request now db' = (Raise transaction_not_found, db').
Proof.
  intros Hnd Hu Hfind.
  destruct (find_one_split _ _ _ Hfind) as (l1 & l2 & Hcoll & Hl1 & [Hid Hown] & _).
  exists l1, l2, (mkdb (users db) (user_sessions db) (l1 ++ l2)).
  split; [done|]. split; [done|].
  assert (delete_transaction tid request now db
          = (Ok "Transaction deleted successfully",
             mkdb (users db) (user_sessions db) (l1 ++ l2))) as Hdel.
  { unfold delete_transaction, bind. rewrite (require_user_Some _ _ _ _ Hu).
    unfold transactions_delete_one.
    by rewrite (delete_one_Some _ _ l1 t l2). }
  split; [done|].
  assert (tid ∉ Transaction.id <$> (l1 ++ l2)) as Hgone.
  { unfold unique_transaction_ids in Hnd. rewrite Hcoll in Hnd.
    rewrite fmap_app, fmap_cons, Hid in Hnd.
    apply NoDup_app in Hnd as (_ & Hl & Hr). apply NoDup_cons in Hr as [Hr _].
    rewrite fmap_app. intros [H|H]%elem_of_app; [|done].
    apply (Hl tid H). apply elem_of_cons. by left. }
  pose proof (single_row_handlers_not_found
                (mkdb (users db) (user_sessions db) (l1 ++ l2)) request now u tid
                (TransactionUpdate.mk None None None None None)) as Hnf.
  destruct Hnf as (Hget & _ & Hdel2).
  - by apply (get_current_user_ext request now db).
  - by apply absent_row_not_found.
  - done.
Qed.

Lemma delete_then_not_found_witness :
  ∃ db',
    delete_transaction "t-2" (bearer_request "tok-alice") sample_now sample_db
    = (Ok "Transaction deleted successfully", db')
    ∧ transactions db' = [lunch; snack; bob_rent]
    ∧ get_transaction "t-2" (bearer_request "tok-alice") sample_now db'
      = (Raise transaction_not_found, db').
Proof.
  destruct (delete_then_not_found sample_db (bearer_request "tok-alice") sample_now
              alice "t-2" salary)
    as (l1 & l2 & db' & Hcoll & Hdb & Hdel & Hget & _).
  - unfold unique_transaction_ids. apply (bool_decide_unpack _). vm_compute. exact I.
  - vm_compute. reflexivity.
  - vm_compute. reflexivity.
  - exists db'. split; [done|]. split; [|done].
    assert ((delete_transaction "t-2" (bearer_request "tok-alice") sample_now
               sample_db).2
            = mkdb (users sample_db) (user_sessions sample_db)
                   [lunch; snack; bob_rent]) as Hval by (vm_compute; reflexivity).
    rewrite Hdel in Hval. simpl in Hval. by rewrite Hval.
Defined.

Lemma set_fields_twice d t : set_fields d (set_fields d t) = set_fields d t.
Proof. by destruct d as [[?|] [?|] [?|] [?|] [?|]]. Qed.

Lemma update_transaction_run db request now u tid d l1 t l2 :
  get_current_user request now db = (Ok (Some u), db) →
  transactions db = l1 ++ t :: l2 →
  Forall (λ x, ¬ owned_query tid (User.id u) x) l1 →
  owned_query tid (User.id u) t →
  update_transaction tid d request now db
  = (Ok (set_fields d t),
     mkdb (users db) (user_sessions db) (l1 ++ set_fields d t :: l2)).
Proof.
  intros Hu Hcoll Hl1 Hq. apply require_user_Some in Hu.
  assert (find_one (owned_query tid (User.id u)) (transactions db) = Some t)
    as Hfind by (rewrite Hcoll; by apply find_one_first).
  unfold update_transaction, bind. rewrite Hu. unfold read. rewrite Hfind.
  destruct (update_data_empty d) eqn:Hd.
  - unfold ret. rewrite Hfind, (set_fields_empty d t Hd), <-Hcoll.
    by rewrite mkdb_eta.
  - unfold set_transactions. simpl.
    rewrite (update_one_Some _ _ _ l1 t l2) by done.
    by rewrite find_one_first.
Qed.

(** X6. After an update of a row the caller owns, reading the id returns
    the row that the update returned, and sending the same update again
    returns that row once more and leaves the database as the first
    update left it. *)
Theorem update_then_read_and_repeat db request now u tid d t :
  get_current_user request now db = (Ok (Some u), db) →
  find_one (owned_query tid (User.id u)) (transactions db) = Some t →
  ∃ t' db',
    update_transaction tid d request now db = (Ok t', db')
    ∧ get_transaction tid request now db' = (Ok t', db')
    ∧ update_transaction tid d request now db' = (Ok t', db').
Proof.
  intros Hu Hfind.
  destruct (find_one_split _ _ _ Hfind) as (l1 & l2 & Hcoll & Hl1 & Hq & _).
  set (db' := mkdb (users db) (user_sessions db) (l1 ++ set_fields d t :: l2)).
  assert (get_current_user request now db' = (Ok (Some u), db')) as Hu'
    by by apply (get_current_user_ext request now db).
  exists (set_fields d t), db'. split_and!.
  - by apply (update_transaction_run db request now u tid d l1 t l2).
  - unfold get_transaction, bind. rewrite (require_user_Some _ _ _ _ Hu').
    unfold read. simpl. by rewrite find_one_first.
  - rewrite (update_transaction_run db' request now u tid d l1 (set_fields d t) l2)
      by done.
    by rewrite set_fields_twice.
Qed.

Lemma update_then_read_and_repeat_witness :
  ∃ t' db',
    update_transaction "t-3" (TransactionUpdate.mk None None (Some "Snacks") None None)
      (bearer_request "tok-alice") sample_now sample_db = (Ok t', db')
    ∧ get_transaction "t-3" (bearer_request "tok-alice") sample_now db' = (Ok t', db').
Proof.
  destruct (update_then_read_and_repeat sample_db (bearer_request "tok-alice")
              sample_now alice "t-3"
              (TransactionUpdate.mk None None (Some "Snacks") None None) snack)
    as (t' & db' & Hup & Hget & _).
  - vm_compute. reflexivity.
  - vm_compute. reflexivity.
  - by exists t', db'.
Defined.

(** X11. A row that [get_transaction] returns is a stored row with the
    requested id whose owner is the user the request resolves to; the
    database is not changed. *)
Theorem get_transaction_returns_own_row db request now tid t db' :
  get_transaction tid request now db = (Ok t, db') →
  db' = db
  ∧ t ∈ transactions db
  ∧ Transaction.id t = tid
  ∧ ∃ u, get_current_user request now db = (Ok (Some u), db)
         ∧ Transaction.user_id t = User.id u.
Proof.
  unfold get_transaction, bind.
  destruct (get_current_user_read_only request now db) as [[u|] Hu].
  - rewrite (require_user_Some _ _ _ _ Hu). unfold read.
    destruct (find_one _ (transactions db)) as [t0|] eqn:E; [|done].
    unfold ret. intros [= <- <-]. apply find_one_Some in E as [Hin [Hid Hown]].
    split_and!; try done. by exists u.
  - rewrite (require_user_None _ _ _ Hu). done.
Qed.

Lemma get_transaction_returns_own_row_witness :
  lunch ∈ transactions sample_db
  ∧ ∃ u, get_current_user (bearer_request "tok-alice") sample_now sample_db
         = (Ok (Some u), sample_db)
         ∧ Transaction.user_id lunch = User.id u.
Proof.
  destruct (get_transaction_returns_own_row sample_db (bearer_request "tok-alice")
              sample_now "t-1" lunch sample_db) as (_ & Hin & _ & Hu).
  - vm_compute. reflexivity.
  - by split.
Defined.

(** ** Sessions from login to logout *)

Lemma find_one_unique_key {A B} `{EqDecision B} (f : A → B) (l : list A) x :
  NoDup (f <$> l) → x ∈ l → find_one (λ y, f y = f x) l = Some x.
Proof.
  intros Hnd Hx.
  destruct (find_one_is_Some (λ y, f y = f x) l x Hx eq_refl) as [y Hy].
  rewrite Hy. f_equal. apply find_one_Some in Hy as [Hin Hf].
  by apply (NoDup_fmap_eq f l).
Qed.

Lemma get_current_user_no_session db request now :
  (∀ s, s ∈ user_sessions db →
        UserSession.session_token s = request_session_token request →
        UserSession.expires_at s ≤ now) →
  get_current_user request now db = (Ok None, db).
Proof.
  intros Hno. unfold get_current_user. case_decide; [done|].
  unfold bind, read.
  assert (find_one (session_query (request_session_token request) now)
                   (user_sessions db) = None) as ->; [|done].
  apply find_one_None, Forall_forall. intros s Hs [Htok Hexp].
  specialize (Hno s Hs Htok). lia.
Qed.

(** X4. A successful login makes its token good for seven days, counted
    in whole milliseconds.  When the token is not empty and no stored
    session already carries it, and user ids are unique (the drawn one
    included), any request carrying the returned token gets the stored
    user from [/auth/me] (the returned user, its [created_at] in whole
    milliseconds when the login created it) as long as [now] is before
    the stored [expires_at], and 401 from then on; the stored
    [expires_at] is the login time plus seven days, less what was left of
    its microseconds. *)
Theorem login_token_is_good_for_seven_days db request provider g session_id
    email name picture token :
  headers request !! "x-session-id" = Some session_id →
  session_id ≠ "" →
  provider session_id
  = Response 200 (mkdata (Some email) (Some name) (Some picture) (Some token)) →
  token ≠ "" →
  (∀ s, s ∈ user_sessions db → UserSession.session_token s ≠ token) →
  NoDup (User.id <$> users db) →
  user_uuid g ∉ User.id <$> users db →
  let expires_at := to_millis (expiry_now g + timedelta_days 7) in
  ∃ user stored db',
    get_session_data request provider g db = (Ok (mksd user token), db')
    ∧ stored ∈ users db'
    ∧ match find_one (λ u, User.email u = email) (users db) with
      | Some _ => stored = user
      | None => stored = to_bson user
      end
    ∧ expiry_now g + timedelta_days 7 - 1000 < expires_at
              ≤ expiry_now g + timedelta_days 7
    ∧ ∀ request' now,
        request_session_token request' = token →
        (now < expires_at →
         get_current_user_info request' now db' = (Ok stored, db'))
        ∧ (expires_at ≤ now →
           get_current_user_info request' now db' = (Raise not_authenticated, db')).
Proof.
  intros Hh Hsid Hp Htok Hnew Hids Hfresh expires_at.
  assert (∃ user stored users',
            get_session_data request provider g db
            = (Ok (mksd user token),
               mkdb users'
                 (user_sessions db
                    ++ [UserSession.mk (session_uuid g) (User.id user) token
                          expires_at (to_millis (session_now g))])
                 (transactions db))
            ∧ NoDup (User.id <$> users') ∧ stored ∈ users'
            ∧ User.id stored = User.id user
            ∧ match find_one (λ u, User.email u = email) (users db) with
              | Some _ => stored = user
              | None => stored = to_bson user
              end)
    as (user & stored & users' & Hrun & Hids' & Hin & Hid & Hcase).
  { unfold get_session_data. rewrite Hh.
    destruct session_id as [|c sid]; [done|]. rewrite Hp.
    case_decide; [done|]. unfold bind, read, field, ret. simpl.
    destruct (find_one (λ u, User.email u = email) (users db))
      as [existing|] eqn:E.
    - exists existing, existing, (users db). split; [done|]. split; [done|].
      split; [|done]. by apply find_one_Some in E as [? _].
    - set (new_user := User.mk (user_uuid g) email name picture (user_now g)).
      exists new_user, (to_bson new_user), (users db ++ [to_bson new_user]).
      split; [done|]. split_and!; [|
        apply elem_of_app; right; by apply list_elem_of_singleton|done|done].
      rewrite fmap_app. apply NoDup_app. split_and!; [done| |apply NoDup_singleton].
      intros x Hx. simpl. rewrite list_elem_of_singleton. by intros ->. }
  eexists user, stored, _. split; [exact Hrun|]. split; [done|]. split; [done|].
  split; [subst expires_at; pose proof (to_millis_bounds
                                         (expiry_now g + timedelta_days 7)); lia|].
  intros request' now Hreq. split.
  - intros Hlive. unfold get_current_user_info.
    apply require_user_Some. unfold get_current_user. rewrite Hreq.
    rewrite decide_False by done. unfold bind, read. simpl.
    rewrite find_one_first; [|by apply Forall_forall; intros s Hs [? _];
                                 apply (Hnew s Hs)|by split].
    simpl. rewrite <-Hid.
    by rewrite (find_one_unique_key User.id users' stored).
  - intros Hdead. unfold get_current_user_info.
    apply require_user_None, get_current_user_no_session. simpl.
    intros s [Hs|Hs]%elem_of_app Hst.
    + destruct (Hnew s Hs). by rewrite Hst, Hreq.
    + apply list_elem_of_singleton in Hs as ->. done.
Qed.

Lemma login_token_is_good_for_seven_days_witness :
  let request := mkreq ∅ {[ "x-session-id" := "sid-2" ]} in
  let data := mkdata (Some "carol@example.com") (Some "Carol")
                     (Some "https://example.com/c.png") (Some "tok-carol") in
  let g := mkdraw "u-carol" (sample_now + 250) (sample_now + 500) "s-carol"
                  (sample_now + 750) in
  ∃ user stored db',
    get_session_data request (λ _, Response 200 data) g sample_db
    = (Ok (mksd user "tok-carol"), db')
    ∧ User.created_at user = sample_now + 250
    ∧ User.created_at stored = sample_now
    ∧ get_current_user_info (bearer_request "tok-carol")
        (sample_now + timedelta_days 7 - 1) db' = (Ok stored, db')
    ∧ get_current_user_info (bearer_request "tok-carol")
        (sample_now + timedelta_days 7 + 100) db' = (Raise not_authenticated, db').
Proof.
  intros request data g.
  destruct (login_token_is_good_for_seven_days sample_db request
              (λ _, Response 200 data) g "sid-2" "carol@example.com" "Carol"
              "https://example.com/c.png" "tok-carol")
    as (user & stored & db' & Hrun & _ & Hcase & _ & Hme).
  - vm_compute. reflexivity.
  - discriminate.
  - reflexivity.
  - discriminate.
  - intros s Hs. unfold sample_db in Hs. simpl in Hs.
    apply elem_of_cons in Hs as [->|Hs]; [discriminate|].
    apply list_elem_of_singleton in Hs as ->. discriminate.
  - apply (bool_decide_unpack _). vm_compute. exact I.
  - apply (bool_decide_unpack _). vm_compute. exact I.
  - assert (find_one (λ u, User.email u = "carol@example.com") (users sample_db)
            = None) as Hnone by (vm_compute; reflexivity).
    rewrite Hnone in Hcase.
    assert (user = User.mk "u-carol" "carol@example.com" "Carol"
                           "https://example.com/c.png" (sample_now + 250)) as Huser.
    { assert ((get_session_data request (λ _, Response 200 data) g sample_db).1
              = Ok (mksd (User.mk "u-carol" "carol@example.com" "Carol"
                                  "https://example.com/c.png" (sample_now + 250))
                         "tok-carol")) as Hval by (vm_compute; reflexivity).
      rewrite Hrun in Hval. by injection Hval. }
    exists user, stored, db'. split; [exact Hrun|].
    split; [by rewrite Huser|]. split; [rewrite Hcase, Huser; vm_compute; reflexivity|].
    destruct (Hme (bearer_request "tok-carol") (sample_now + timedelta_days 7 - 1))
      as [Hlive _]; [vm_compute; reflexivity|].
    destruct (Hme (bearer_request "tok-carol") (sample_now + timedelta_days 7 + 100))
      as [_ Hdead]; [vm_compute; reflexivity|].
    split; [apply Hlive|apply Hdead]; vm_compute; done.
Defined.

(** X5. When no two session rows share a token, logout ends the session:
    after it, the same request resolves to no user at any time. *)
Theorem logout_ends_the_session db request :
  NoDup (UserSession.session_token <$> user_sessions db) →
  ∃ db',
    logout request db = (Ok logged_out, db')
    ∧ ∀ now, get_current_user request now db' = (Ok None, db').
Proof.
  intros Hnd. set (tok := request_session_token request).
  destruct (decide (tok = "")) as [Htok|Htok].
  { exists db. split; [by apply logout_no_token|].
    intros now. unfold get_current_user. fold tok. by rewrite decide_True. }
  destruct (find_one (λ s, UserSession.session_token s = tok) (user_sessions db))
    as [s1|] eqn:Efind.
  - destruct (find_one_split _ _ _ Efind) as (l1 & l2 & Hcoll & Hl1 & Hq & _).
    exists (mkdb (users db) (l1 ++ l2) (transactions db)).
    split; [by apply (logout_first_match request db l1 s1 l2)|].
    intros now. apply get_current_user_no_session. simpl. fold tok.
    intros s Hs Hst. exfalso.
    rewrite Hcoll, fmap_app, fmap_cons, Hq in Hnd.
    apply NoDup_app in Hnd as (_ & Hl & Hr). apply NoDup_cons in Hr as [Hr _].
    apply elem_of_app in Hs as [Hs|Hs].
    + rewrite Forall_forall in Hl1. by apply (Hl1 s Hs).
    + apply Hr. rewrite <-Hst. by apply list_elem_of_fmap_2.
  - exists db. apply find_one_None in Efind. rewrite Forall_forall in Efind.
    split; [by apply logout_no_match|].
    intros now. apply get_current_user_no_session. fold tok.
    intros s Hs Hst. by destruct (Efind s Hs).
Qed.

Lemma logout_ends_the_session_witness :
  ∃ db',
    logout (bearer_request "tok-alice") sample_db = (Ok logged_out, db')
    ∧ get_current_user (bearer_request "tok-alice") sample_now db' = (Ok None, db').
Proof.
  destruct (logout_ends_the_session sample_db (bearer_request "tok-alice"))
    as (db' & Hout & Hnone).
  - apply (bool_decide_unpack _). vm_compute. exact I.
  - exists db'. split; [exact Hout|apply Hnone].
Defined.

(** X14. A non-empty [session_token] cookie is the token, verbatim, and
    the [Authorization] header is not looked at: identity resolution and
    logout behave as for a request with that cookie and no header at all,
    so a cookie that matches no session is not rescued by a header that
    would.  An empty cookie counts as absent and the header is used. *)
Theorem cookie_shadows_authorization_header request :
  (∀ c r,
     cookies request !! "session_token" = Some (String c r) →
     let cookie_only := mkreq {[ "session_token" := String c r ]} ∅ in
     request_session_token request = String c r
     ∧ (∀ now, get_current_user request now = get_current_user cookie_only now)
     ∧ logout request = logout cookie_only)
  ∧ (cookies request !! "session_token" = Some "" →
     request_session_token request
     = replace "Bearer " "" (default "" (headers request !! "authorization"))).
Proof.
  split.
  - intros c r Hc cookie_only.
    assert (request_session_token request = String c r) as Htok
      by (unfold request_session_token; by rewrite Hc).
    assert (request_session_token cookie_only = String c r) as Htok'
      by (unfold request_session_token, cookie_only; simpl;
          by rewrite lookup_singleton_eq).
    split_and!; [done| |].
    + intros now. unfold get_current_user. by rewrite Htok, Htok'.
    + unfold logout. by rewrite Htok, Htok'.
  - intros Hc. unfold request_session_token. by rewrite Hc.
Qed.

(** A stale cookie next to a header that carries a live token: the
    request is not authenticated. *)
Example stale_cookie_blocks_live_header :
  get_current_user
    (mkreq {[ "session_token" := "tok-stale" ]}
           {[ "authorization" := "Bearer tok-alice" ]})
    sample_now sample_db
  = (Ok None, sample_db).
Proof. vm_compute. reflexivity. Qed.

(** ** What a caller's writes leave alone *)

(** X8. Whatever an authenticated caller creates, updates or deletes,
    the rows of every other owner stay as they were, in the same order;
    users and sessions are not touched either. *)
Theorem writes_leave_other_owners_rows db request now u :
  get_current_user request now db = (Ok (Some u), db) →
  let others (d : database) :=
    filter (λ t, Transaction.user_id t ≠ User.id u) (transactions d) in
  (∀ p uuid4 created_now,
     others (create_transaction p request now uuid4 created_now db).2 = others db)
  ∧ (∀ tid d, others (update_transaction tid d request now db).2 = others db)
  ∧ (∀ tid, others (delete_transaction tid request now db).2 = others db).
Proof.
  intros Hu others. pose proof (require_user_Some _ _ _ _ Hu) as Hr.
  unfold others. split_and!.
  - intros p uuid4 created_now. unfold create_transaction, bind. rewrite Hr.
    simpl. unfold insert_one. rewrite filter_app, filter_cons_False by (by intros ?).
    by rewrite filter_nil, app_nil_r.
  - intros tid d.
    destruct (find_one (owned_query tid (User.id u)) (transactions db))
      as [t|] eqn:E.
    + destruct (find_one_split _ _ _ E) as (l1 & l2 & Hcoll & Hl1 & Hq & _).
      rewrite (update_transaction_run db request now u tid d l1 t l2) by done.
      simpl. rewrite Hcoll, !filter_app. f_equal.
      destruct Hq as [_ Hown].
      by rewrite !filter_cons_False by (by intros ?).
    + destruct (single_row_handlers_not_found db request now u tid d Hu E)
        as (_ & -> & _). done.
  - intros tid.
    destruct (find_one (owned_query tid (User.id u)) (transactions db))
      as [t|] eqn:E.
    + destruct (find_one_split _ _ _ E) as (l1 & l2 & Hcoll & Hl1 & Hq & _).
      unfold delete_transaction, bind. rewrite Hr. unfold transactions_delete_one.
      rewrite (delete_one_Some _ _ l1 t l2) by done.
      simpl. rewrite Hcoll, !filter_app. f_equal.
      destruct Hq as [_ Hown]. by rewrite filter_cons_False by (by intros ?).
    + destruct (single_row_handlers_not_found db request now u tid
                  (TransactionUpdate.mk None None None None None) Hu E)
        as (_ & _ & ->). done.
Qed.

Lemma writes_leave_other_owners_rows_witness :
  filter (λ t, Transaction.user_id t ≠ "u-alice")
    (transactions (delete_transaction "t-1" (bearer_request "tok-alice")
                     sample_now sample_db).2)
  = [bob_rent].
Proof.
  destruct (writes_leave_other_owners_rows sample_db (bearer_request "tok-alice")
              sample_now alice) as (_ & _ & Hdel).
  - vm_compute. reflexivity.
  - cbn zeta in Hdel. rewrite Hdel. vm_compute. reflexivity.
Defined.

(** ** More invariants of the reachable databases *)

Lemma get_current_user_stored db request now u :
  get_current_user request now db = (Ok (Some u), db) → u ∈ users db.
Proof.
  unfold get_current_user. case_decide; [done|]. unfold bind, read.
  destruct (find_one _ (user_sessions db)) as [s|]; [|done].
  destruct (find_one _ (users db)) as [u'|] eqn:E; [|done].
  intros [= <-]. by apply find_one_Some in E as [? _].
Qed.

Lemma run_call_users_prefix c db :
  users db `prefix_of` users (run_call c db)
  ∧ (length (users (run_call c db)) ≤ S (length (users db)))%nat.
Proof.
  destruct c as [request provider g|request|d request now uuid4 created_now
                 |tid d request now|tid request now];
    try (destruct (run_call_frame (CallCreate d request now uuid4 created_now) db)
           as [-> _]; split; [done|lia]);
    try (destruct (run_call_frame (CallUpdate tid d request now) db)
           as [-> _]; split; [done|lia]);
    try (destruct (run_call_frame (CallDelete tid request now) db)
           as [-> _]; split; [done|lia]).
  - simpl.
    destruct (get_session_data_writes request provider g db) as (_ & Hu & _).
    cbn zeta in Hu. destruct Hu as [->|(new_user & -> & _)]; [split; [done|lia]|].
    split; [by apply prefix_app_r|]. rewrite length_app. simpl. lia.
  - simpl. unfold logout, bind. case_decide; [split; [done|simpl; lia]|].
    unfold user_sessions_delete_one. destruct (delete_one _ _).
    split; [done|simpl; lia].
Qed.

(** X10. No sequence of calls removes or rewrites a user: the users at
    the start are a prefix of the users at the end, and each call adds at
    most one. *)
Theorem users_are_append_only calls db :
  let db' := foldl (λ d c, run_call c d) db calls in
  users db `prefix_of` users db'
  ∧ (length (users db') ≤ length (users db) + length calls)%nat.
Proof.
  revert db. induction calls as [|c calls IH]; intros db; simpl.
  { split; [done|lia]. }
  destruct (IH (run_call c db)) as [Hpre Hlen].
  destruct (run_call_users_prefix c db) as [Hpre1 Hlen1].
  split; [by etrans|]. cbn zeta in Hlen. lia.
Qed.

Lemma emails_unique_step c db :
  NoDup (User.email <$> users db) → NoDup (User.email <$> users (run_call c db)).
Proof.
  intros Hinv.
  destruct c as [request provider g|request|d request now uuid4 created_now
                 |tid d request now|tid request now];
    try (by destruct (run_call_frame (CallCreate d request now uuid4 created_now) db)
           as [-> _]);
    try (by destruct (run_call_frame (CallUpdate tid d request now) db) as [-> _]);
    try (by destruct (run_call_frame (CallDelete tid request now) db) as [-> _]).
  - simpl.
    destruct (get_session_data_writes request provider g db) as (_ & Hu & _).
    cbn zeta in Hu. destruct Hu as [->|(new_user & -> & _ & E)]; [done|].
    rewrite fmap_app. apply NoDup_app.
    split_and!; [done| |apply NoDup_singleton].
    intros x Hx. simpl. rewrite list_elem_of_singleton. intros ->.
    apply list_elem_of_fmap in Hx as (u & Hu & Hin).
    apply find_one_None in E. rewrite Forall_forall in E. by apply (E u Hin).
  - simpl. unfold logout, bind. case_decide; [done|].
    unfold user_sessions_delete_one. by destruct (delete_one _ _).
Qed.

Lemma transactions_reference_users_step c db :
  Forall (λ t, Transaction.user_id t ∈ User.id <$> users db) (transactions db) →
  Forall (λ t, Transaction.user_id t ∈ User.id <$> users (run_call c db))
         (transactions (run_call c db)).
Proof.
  intros Hinv.
  destruct c as [request provider g|request|d request now uuid4 created_now
                 |tid d request now|tid request now].
  - rewrite (run_call_frame (CallSessionData request provider g) db).
    destruct (run_call_users_prefix (CallSessionData request provider g) db)
      as [[k ->] _].
    eapply Forall_impl; [done|]. intros t Ht. rewrite fmap_app.
    apply elem_of_app. by left.
  - rewrite (run_call_frame (CallLogout request) db).
    destruct (run_call_users_prefix (CallLogout request) db) as [[k Hk] Hlen].
    rewrite Hk in Hlen |- *.
    eapply Forall_impl; [done|]. intros t Ht. rewrite fmap_app.
    apply elem_of_app. by left.
  - destruct (run_call_frame (CallCreate d request now uuid4 created_now) db)
      as [-> _]. simpl. unfold create_transaction, bind.
    destruct (get_current_user_read_only request now db) as [[u|] Hu].
    + rewrite (require_user_Some _ _ _ _ Hu). simpl. unfold insert_one.
      apply Forall_app. split; [done|]. apply Forall_singleton. simpl.
      apply list_elem_of_fmap_2. by apply (get_current_user_stored db request now).
    + by rewrite (require_user_None _ _ _ Hu).
  - destruct (run_call_frame (CallUpdate tid d request now) db) as [-> _].
    simpl. unfold update_transaction, bind.
    destruct (require_user_cases request now db) as [[u ->]| ->]; [|done].
    unfold read. destruct (find_one _ (transactions db)); [|done].
    assert (Forall (λ t, Transaction.user_id t ∈ User.id <$> users db)
              (update_one (owned_query tid (User.id u)) (set_fields d)
                 (transactions db))) as Hup.
    { unfold update_one.
      destruct (list_find _ (transactions db)) as [[i x]|] eqn:E; [|done].
      apply Forall_insert; [done|]. apply list_find_Some in E as (Hi & _ & _).
      rewrite Forall_forall in Hinv. apply (Hinv x).
      by eapply list_elem_of_lookup_2. }
    destruct (update_data_empty d); simpl.
    + by destruct (find_one _ (transactions db)).
    + by destruct (find_one _ _).
  - destruct (run_call_frame (CallDelete tid request now) db) as [-> _].
    simpl. unfold delete_transaction, bind.
    destruct (require_user_cases request now db) as [[u ->]| ->]; [|done].
    unfold transactions_delete_one, delete_one.
    destruct (list_find _ (transactions db)) as [[i x]|]; [|done].
    assert (Forall (λ t, Transaction.user_id t ∈ User.id <$> users db)
              (delete i (transactions db))) by by apply Forall_delete.
    by case_decide.
Qed.

(** X9. On every database the handlers can produce from the empty one,
    no two users share an email and every transaction names the id of a
    stored user as its owner. *)
Theorem reachable_emails_unique_and_owners_stored db :
  reachable db →
  NoDup (User.email <$> users db)
  ∧ Forall (λ t, Transaction.user_id t ∈ User.id <$> users db) (transactions db).
Proof.
  induction 1 as [|c db Hr [IH1 IH2] Hfresh].
  - split; [apply NoDup_nil_2|apply Forall_nil_2].
  - split; [by apply emails_unique_step
           |by apply transactions_reference_users_step].
Qed.

Lemma reachable_emails_unique_and_owners_stored_witness :
  NoDup (User.email <$> users sample_db)
  ∧ Forall (λ t, Transaction.user_id t ∈ User.id <$> users sample_db)
           (transactions sample_db).
Proof.
  exact (reachable_emails_unique_and_owners_stored sample_db sample_db_reachable).
Defined.

(** ** What a caller's reads depend on *)

Lemma filter_none {A} (P : A → Prop) `{!∀ x, Decision (P x)} (l : list A) :
  Forall (λ x, ¬ P x) l → filter P l = [].
Proof.
  induction 1 as [|x l Hx Hl IH]; [done|]. by rewrite filter_cons_False.
Qed.

Lemma find_one_head_filter {A} (q : A → Prop) `{!∀ x, Decision (q x)} (l : list A) :
  find_one q l = head (filter q l).
Proof.
  unfold find_one. induction l as [|x l IH]; [done|].
  rewrite filter_cons. simpl. destruct (decide (q x)); [done|].
  rewrite <-IH. by destruct (list_find q l) as [[??]|].
Qed.

Lemma unfiltered_query_matches uid (l : list Transaction.t) :
  filter (list_query_matches (mkquery uid None None None)) l
  = filter (λ t, Transaction.user_id t = uid) l.
Proof. apply list_filter_iff. intros t. unfold list_query_matches. simpl. tauto. Qed.

(** [parse_bound] does not look at the database. *)
Lemma parse_bound_any_db fromisoformat param db1 db2 r :
  parse_bound fromisoformat param db1 = (r, db1) →
  parse_bound fromisoformat param db2 = (r, db2).
Proof.
  unfold parse_bound. destruct (truthy param) as [text|].
  - destruct (fromisoformat _); by intros [= <-].
  - by intros [= <-].
Qed.

(** X16. What the reading routes return to a caller depends on the
    caller's own rows only: on two databases with the same users and
    sessions in which the caller owns the same rows in the same order,
    listing (under any filters), reading by id, the dashboard and the
    monthly analytics return the same results, whatever rows other
    owners have. *)
Theorem reads_depend_on_own_rows_only fromisoformat db1 db2 request now u :
  get_current_user request now db1 = (Ok (Some u), db1) →
  users db2 = users db1 →
  user_sessions db2 = user_sessions db1 →
  filter (λ t, Transaction.user_id t = User.id u) (transactions db2)
  = filter (λ t, Transaction.user_id t = User.id u) (transactions db1) →
  (∀ category start_date end_date,
     (get_transactions fromisoformat request now category start_date end_date db2).1
     = (get_transactions fromisoformat request now category start_date end_date db1).1)
  ∧ (∀ tid, (get_transaction tid request now db2).1
            = (get_transaction tid request now db1).1)
  ∧ (get_dashboard_stats request now db2).1 = (get_dashboard_stats request now db1).1
  ∧ (∀ end_date, (get_monthly_analytics request now end_date db2).1
                 = (get_monthly_analytics request now end_date db1).1).
Proof.
  intros Hu1 Husers Hsess Hown.
  pose proof (get_current_user_ext request now db1 db2 _ Husers Hsess Hu1) as Hu2.
  apply require_user_Some in Hu1, Hu2.
  set (own := λ t, Transaction.user_id t = User.id u) in *.
  split_and!.
  - intros category start_date end_date. unfold get_transactions, bind.
    rewrite Hu1, Hu2.
    destruct (parse_bound fromisoformat start_date db1) as [r1 d1] eqn:E1.
    pose proof (parse_bound_pure _ _ _ _ _ E1) as ->.
    rewrite (parse_bound_any_db _ _ db1 db2 _ E1).
    destruct r1 as [gte|e]; [|done].
    destruct (parse_bound fromisoformat end_date db1) as [r2 d2] eqn:E2.
    pose proof (parse_bound_pure _ _ _ _ _ E2) as ->.
    rewrite (parse_bound_any_db _ _ db1 db2 _ E2).
    destruct r2 as [lte|e]; [|done].
    unfold read, find. simpl.
    set (q := mkquery (User.id u) (truthy category) gte lte).
    rewrite <-(list_filter_filter_l (list_query_matches q) own (transactions db2)),
            <-(list_filter_filter_l (list_query_matches q) own (transactions db1));
      [by rewrite Hown|by intros t [? _]..].
  - intros tid. unfold get_transaction, bind. rewrite Hu1, Hu2. unfold read.
    rewrite !find_one_head_filter.
    rewrite <-(list_filter_filter_l (owned_query tid (User.id u)) own
                 (transactions db2)),
            <-(list_filter_filter_l (owned_query tid (User.id u)) own
                 (transactions db1));
      [|by intros t [_ ?]..].
    rewrite Hown. by destruct (head _).
  - unfold get_dashboard_stats, bind. rewrite Hu1, Hu2. unfold read, find. simpl.
    fold own. by rewrite Hown.
  - intros end_date. unfold get_monthly_analytics, bind. rewrite Hu1, Hu2.
    unfold read, find. simpl.
    set (q := monthly_query (User.id u) (end_date - timedelta_days 365) end_date).
    rewrite <-(list_filter_filter_l q own (transactions db2)),
            <-(list_filter_filter_l q own (transactions db1));
      [by rewrite Hown|by intros t [? _]..].
Qed.

Lemma reads_depend_on_own_rows_only_witness :
  let without_bob :=
    mkdb (users sample_db) (user_sessions sample_db) [lunch; salary; snack] in
  (get_dashboard_stats (bearer_request "tok-alice") sample_now without_bob).1
  = (get_dashboard_stats (bearer_request "tok-alice") sample_now sample_db).1.
Proof.
  intros without_bob.
  destruct (reads_depend_on_own_rows_only (λ _, None) sample_db without_bob
              (bearer_request "tok-alice") sample_now alice)
    as (_ & _ & Hstats & _); [vm_compute; reflexivity|done|done| |exact Hstats].
  vm_compute. reflexivity.
Defined.

(** X15. A caller who owns no row gets an empty list under any filters
    that parse, a dashboard of zeros with an empty breakdown, and no
    month at all. *)
Theorem account_without_rows fromisoformat db request now u :
  get_current_user request now db = (Ok (Some u), db) →
  Forall (λ t, Transaction.user_id t ≠ User.id u) (transactions db) →
  (∀ category start_date end_date gte lte,
     parse_bound fromisoformat start_date db = (Ok gte, db) →
     parse_bound fromisoformat end_date db = (Ok lte, db) →
     get_transactions fromisoformat request now category start_date end_date db
     = (Ok [], db))
  ∧ get_dashboard_stats request now db = (Ok (DashboardStats.mk 0 0 0 0 ∅), db)
  ∧ (∀ end_date, get_monthly_analytics request now end_date db = (Ok ∅, db)).
Proof.
  intros Hu Hnone. split_and!.
  - intros category start_date end_date gte lte Hg Hl.
    rewrite (get_transactions_run _ _ _ _ u _ _ _ gte lte) by done.
    rewrite filter_none; [done|].
    eapply Forall_impl; [done|]. by intros t Ht [? _].
  - rewrite (get_dashboard_stats_run _ _ _ u) by done.
    by rewrite filter_none.
  - intros end_date. rewrite (get_monthly_analytics_run _ _ _ _ u) by done.
    rewrite filter_none; [done|].
    eapply Forall_impl; [done|]. by intros t Ht [? _].
Qed.

Lemma account_without_rows_witness :
  get_dashboard_stats (bearer_request "tok-bob") sample_now
    (mkdb (users sample_db) (user_sessions sample_db) [lunch; salary; snack])
  = (Ok (DashboardStats.mk 0 0 0 0 ∅),
     mkdb (users sample_db) (user_sessions sample_db) [lunch; salary; snack]).
Proof.
  apply (account_without_rows (λ _, None) _ (bearer_request "tok-bob") sample_now bob).
  - vm_compute. reflexivity.
  - repeat constructor; discriminate.
Defined.

(** X12. A caller who owns fewer than 1000 rows finds the row just
    created in the unfiltered list, as the store keeps it (the returned
    record with [date] and [created_at] in whole milliseconds); the list
    is one row longer than the caller's rows were, and the dashboard
    counts one row more. *)
Theorem created_row_is_listed fromisoformat db request now uuid4 created_now payload u :
  get_current_user request now db = (Ok (Some u), db) →
  let owned := filter (λ t, Transaction.user_id t = User.id u) (transactions db) in
  (length owned < 1000)%nat →
  ∃ t stored db' rows stats,
    create_transaction payload request now uuid4 created_now db = (Ok t, db')
    ∧ stored = Transaction.mk (Transaction.id t) (Transaction.user_id t)
                 (Transaction.type t) (Transaction.amount t)
                 (Transaction.category t) (Transaction.description t)
                 (to_millis (Transaction.date t))
                 (to_millis (Transaction.created_at t))
    ∧ get_transactions fromisoformat request now None None None db' = (Ok rows, db')
    ∧ stored ∈ rows
    ∧ length rows = S (length owned)
    ∧ get_dashboard_stats request now db' = (Ok stats, db')
    ∧ DashboardStats.transactions_count stats = S (length owned).
Proof.
  intros Hu owned Hlt.
  set (t := Transaction.mk uuid4 (User.id u)
              (TransactionCreate.type payload) (TransactionCreate.amount payload)
              (TransactionCreate.category payload)
              (TransactionCreate.description payload)
              (TransactionCreate.date payload) created_now).
  set (stored := to_bson t).
  set (db' := mkdb (users db) (user_sessions db) (transactions db ++ [stored])).
  assert (get_current_user request now db' = (Ok (Some u), db')) as Hu'
    by by apply (get_current_user_ext request now db).
  assert (filter (λ x, Transaction.user_id x = User.id u) (transactions db')
          = owned ++ [stored]) as Hown.
  { simpl. by rewrite filter_app, filter_cons_True. }
  eexists t, stored, db', _, _. split_and!.
  - unfold create_transaction, bind. by rewrite (require_user_Some _ _ _ _ Hu).
  - done.
  - by apply (get_transactions_run _ _ _ _ u _ _ _ None None).
  - simpl truthy. rewrite unfiltered_query_matches, Hown.
    rewrite take_ge.
    + unfold sort_date_desc. rewrite merge_sort_Permutation.
      apply elem_of_app. right. by apply list_elem_of_singleton.
    + unfold sort_date_desc. rewrite merge_sort_Permutation, length_app.
      change (length [stored]) with 1%nat. lia.
  - simpl truthy. rewrite unfiltered_query_matches, Hown.
    rewrite length_take. unfold sort_date_desc.
    rewrite merge_sort_Permutation, length_app.
    change (length [stored]) with 1%nat. lia.
  - by apply get_dashboard_stats_run.
  - simpl. fold owned. rewrite filter_app, filter_cons_True by done.
    rewrite filter_nil, length_take, length_app.
    change (length [stored]) with 1%nat. unfold owned in *. lia.
Qed.

Lemma created_row_is_listed_witness :
  ∃ t stored db' rows stats,
    create_transaction (TransactionCreate.mk "expense" 4 "Food" "Tea" 1710000000000999)
      (bearer_request "tok-alice") sample_now "t-6" (sample_now + 1) sample_db
    = (Ok t, db')
    ∧ stored = Transaction.mk "t-6" "u-alice" "expense" 4 "Food" "Tea"
                 1710000000000000 sample_now
    ∧ get_transactions (λ _, None) (bearer_request "tok-alice") sample_now
        None None None db' = (Ok rows, db')
    ∧ stored ∈ rows ∧ length rows = 4%nat
    ∧ get_dashboard_stats (bearer_request "tok-alice") sample_now db' = (Ok stats, db')
    ∧ DashboardStats.transactions_count stats = 4%nat.
Proof.
  destruct (created_row_is_listed (λ _, None) sample_db (bearer_request "tok-alice")
              sample_now "t-6" (sample_now + 1)
              (TransactionCreate.mk "expense" 4 "Food" "Tea" 1710000000000999) alice)
    as (t & stored & db' & rows & stats & Hc & Hst & Hrows & Hin & Hlen & Hstats & Hn).
  - vm_compute. reflexivity.
  - vm_compute. lia.
  - exists t, stored, db', rows, stats. split_and!; try done.
    assert ((create_transaction
               (TransactionCreate.mk "expense" 4 "Food" "Tea" 1710000000000999)
               (bearer_request "tok-alice") sample_now "t-6" (sample_now + 1)
               sample_db).1
            = Ok (Transaction.mk "t-6" "u-alice" "expense" 4 "Food" "Tea"
                    1710000000000999 (sample_now + 1))) as Hval
      by (vm_compute; reflexivity).
    rewrite Hc in Hval. injection Hval as ->. rewrite Hst. vm_compute. reflexivity.
Defined.


(** ** Repeated logins and the columns an update cannot reach *)

(** The session row a login stores for [user]. *)
Lemma get_session_data_run db request provider g session_id data email token :
  headers request !! "x-session-id" = Some session_id →
  session_id ≠ "" →
  provider session_id = Response 200 data →
  data_email data = Some email →
  data_session_token data = Some token →
  let session_of (user : User.t) :=
    UserSession.mk (session_uuid g) (User.id user) token
                   (to_millis (expiry_now g + timedelta_days 7))
                   (to_millis (session_now g)) in
  (∀ existing,
     find_one (λ u, User.email u = email) (users db) = Some existing →
     get_session_data request provider g db
     = (Ok (mksd existing token),
        mkdb (users db) (user_sessions db ++ [session_of existing])
             (transactions db)))
  ∧ (∀ name picture,
       find_one (λ u, User.email u = email) (users db) = None →
       data_name data = Some name →
       data_picture data = Some picture →
       let new_user := User.mk (user_uuid g) email name picture (user_now g) in
       get_session_data request provider g db
       = (Ok (mksd new_user token),
          mkdb (users db ++ [to_bson new_user])
               (user_sessions db ++ [session_of new_user])
               (transactions db))).
Proof.
  intros Hh Hsid Hp He Ht session_of. unfold get_session_data. rewrite Hh.
  destruct session_id as [|c sid]; [done|]. rewrite Hp.
  case_decide; [done|]. unfold bind, read, field, ret. rewrite He, Ht.
  split.
  - by intros existing ->.
  - by intros name picture -> -> ->.
Qed.

(** X17. Logging in again with the same email reuses the user: whatever
    name and picture the second answer brings, or none at all, the second
    exchange adds no user and returns the user as the store keeps it, that
    is the record the first exchange returned, its [created_at] in whole
    milliseconds when the first exchange created it; each of the two
    exchanges adds one session. *)
Theorem second_login_reuses_the_user db request1 provider1 g1 sid1
    email name picture token1 request2 provider2 g2 sid2 data2 token2 :
  headers request1 !! "x-session-id" = Some sid1 → sid1 ≠ "" →
  provider1 sid1
  = Response 200 (mkdata (Some email) (Some name) (Some picture) (Some token1)) →
  headers request2 !! "x-session-id" = Some sid2 → sid2 ≠ "" →
  provider2 sid2 = Response 200 data2 →
  data_email data2 = Some email →
  data_session_token data2 = Some token2 →
  ∃ user1 user2 db1 db2,
    get_session_data request1 provider1 g1 db = (Ok (mksd user1 token1), db1)
    ∧ get_session_data request2 provider2 g2 db1 = (Ok (mksd user2 token2), db2)
    ∧ users db2 = users db1
    ∧ match find_one (λ u, User.email u = email) (users db) with
      | Some _ => user2 = user1
      | None =>
          user2 = User.mk (User.id user1) (User.email user1) (User.name user1)
                          (User.picture user1) (to_millis (User.created_at user1))
      end
    ∧ length (user_sessions db2) = S (S (length (user_sessions db))).
Proof.
  intros Hh1 Hs1 Hp1 Hh2 Hs2 Hp2 He2 Ht2.
  destruct (get_session_data_run db request1 provider1 g1 sid1 _ email token1
              Hh1 Hs1 Hp1 eq_refl eq_refl) as [Hold Hnew].
  destruct (find_one (λ u, User.email u = email) (users db)) as [existing|] eqn:E.
  - specialize (Hold existing eq_refl).
    match type of Hold with _ = (_, ?d) => set (db1 := d) in * end.
    destruct (get_session_data_run db1 request2 provider2 g2 sid2 data2 email token2
                Hh2 Hs2 Hp2 He2 Ht2) as [Hold2 _].
    specialize (Hold2 existing E).
    eexists existing, existing, db1, _. split; [exact Hold|].
    split; [exact Hold2|]. split; [done|]. split; [done|].
    simpl. rewrite !length_app. simpl. lia.
  - specialize (Hnew name picture eq_refl eq_refl eq_refl). cbn zeta in Hnew.
    match type of Hnew with _ = (Ok (mksd ?u _), ?d) =>
      set (user1 := u) in *; set (db1 := d) in * end.
    destruct (get_session_data_run db1 request2 provider2 g2 sid2 data2 email token2
                Hh2 Hs2 Hp2 He2 Ht2) as [Hold2 _].
    assert (find_one (λ u, User.email u = email) (users db1) = Some (to_bson user1))
      as Hfound.
    { subst db1. simpl. apply find_one_None in E. by apply find_one_first. }
    specialize (Hold2 _ Hfound).
    eexists user1, (to_bson user1), db1, _. split; [exact Hnew|].
    split; [exact Hold2|]. split; [done|]. split; [done|].
    simpl. rewrite !length_app. simpl. lia.
Qed.

Lemma second_login_reuses_the_user_witness :
  let request := mkreq ∅ {[ "x-session-id" := "sid-3" ]} in
  let first := mkdata (Some "dan@example.com") (Some "Dan")
                      (Some "https://example.com/d.png") (Some "tok-dan-1") in
  let second := mkdata (Some "dan@example.com") None None (Some "tok-dan-2") in
  ∃ user1 user2 db1 db2,
    get_session_data request (λ _, Response 200 first)
      (mkdraw "u-dan" 1234 1 "s-dan-1" 1) sample_db
    = (Ok (mksd user1 "tok-dan-1"), db1)
    ∧ get_session_data request (λ _, Response 200 second)
        (mkdraw "u-other" 2 2 "s-dan-2" 2) db1
      = (Ok (mksd user2 "tok-dan-2"), db2)
    ∧ users db2 = users db1
    ∧ user2 = User.mk (User.id user1) (User.email user1) (User.name user1)
                      (User.picture user1) (to_millis (User.created_at user1))
    ∧ length (user_sessions db2) = 4%nat.
Proof.
  intros request first second.
  destruct (second_login_reuses_the_user sample_db request (λ _, Response 200 first)
              (mkdraw "u-dan" 1234 1 "s-dan-1" 1) "sid-3" "dan@example.com" "Dan"
              "https://example.com/d.png" "tok-dan-1"
              request (λ _, Response 200 second)
              (mkdraw "u-other" 2 2 "s-dan-2" 2) "sid-3" second "tok-dan-2")
    as (user1 & user2 & db1 & db2 & H1 & H2 & Hu & Hcase & Hlen);
    [first [reflexivity|discriminate]..|].
  assert (find_one (λ u, User.email u = "dan@example.com") (users sample_db) = None)
    as Hnone by (vm_compute; reflexivity).
  rewrite Hnone in Hcase. by exists user1, user2, db1, db2.
Defined.

(** X18. No update, whoever sends it and whatever it carries, changes
    the number of rows or the id, the owner or the [created_at] of any
    row: these three columns of the collection are the same after the
    call as before. *)
Theorem update_keeps_ids_owners_and_creation_times db request now tid d :
  let db' := (update_transaction tid d request now db).2 in
  Transaction.id <$> transactions db' = Transaction.id <$> transactions db
  ∧ Transaction.user_id <$> transactions db'
    = Transaction.user_id <$> transactions db
  ∧ Transaction.created_at <$> transactions db'
    = Transaction.created_at <$> transactions db
  ∧ length (transactions db') = length (transactions db).
Proof.
  intros db'.
  assert (db' = db
          ∨ ∃ q (Hdec : ∀ x, Decision (q x)),
              transactions db' = update_one q (set_fields d) (transactions db))
    as [->|(q & Hdec & ->)]; [|done|].
  { subst db'. unfold update_transaction, bind.
    destruct (require_user_cases request now db) as [[u ->]| ->]; [|by left].
    unfold read. destruct (find_one _ (transactions db)); [|by left].
    destruct (update_data_empty d); simpl.
    - left. by destruct (find_one _ (transactions db)).
    - right. eexists _, _. by destruct (find_one _ _). }
  unfold update_one.
  destruct (list_find q (transactions db)) as [[i x]|] eqn:E; [|done].
  apply list_find_Some in E as (Hi & _ & _).
  rewrite !list_fmap_insert, length_insert.
  split_and!; [..|done]; apply list_insert_id; by rewrite list_lookup_fmap, Hi.
Qed.

Lemma reachable_live_session_resolves_witness :
  ∃ u, get_current_user (bearer_request "tok-bob") sample_now sample_db
       = (Ok (Some u), sample_db).
Proof.
  apply (reachable_live_session_resolves sample_db (bearer_request "tok-bob")
           sample_now bob_session sample_db_reachable).
  - unfold sample_db. simpl. apply elem_of_cons. right. apply elem_of_cons. by left.
  - vm_compute. discriminate.
  - vm_compute. reflexivity.
  - vm_compute. reflexivity.
Defined.
